(** * Proof Messenger performance-test harness: configuration, mock server
      and budget evaluation

    A shallow embedding of [performance-tests/config.py] (the budget and
    scenario tables and their resolvers), of [performance-tests/mock_server.py]
    (payload validation, batch verification, the statistics endpoint) and of
    [performance-tests/locustfile.py] (the scenario-to-user-classes table and
    the end-of-run report), followed by a model of the budget evaluator.

    Conventions of the embedding:
    - Python [int] is [Z]; Python [float] is an exact rational [Q], so the
      rounding of IEEE arithmetic is abstracted away and equalities between
      floats are stated with [==];
    - Python [dict]s with string keys are [gmap string _]; JSON payloads are
      values of [pyval], whose objects are association lists;
    - a function that can raise returns a [result], the exception being the
      [Err] case; [random] and [datetime.now] are explicit arguments. *)

From Stdlib Require Import ZArith QArith Qround Lqa Ascii.
From stdpp Require Import gmap strings list fin_maps pretty sorting.

Local Open Scope string_scope.
Local Open Scope Z_scope.

#[local] Set Warnings "-register-all".

(** ** Python values, exceptions and the error monad *)

Module Py.

Inductive exn : Type :=
| KeyError (key : string)
| TypeError
| ZeroDivisionError
| BadRequest
| ValidationError
| ConfigurationError.

Inductive result (A : Type) : Type :=
| Ok (a : A)
| Err (e : exn).
Arguments Ok {A} a.
Arguments Err {A} e.

Definition bind {A B : Type} (m : result A) (k : A -> result B) : result B :=
  match m with
  | Ok a => k a
  | Err e => Err e
  end.

Definition raises {A : Type} (m : result A) : Prop :=
  exists e, m = Err e.

Definition returns {A : Type} (m : result A) : Prop :=
  exists a, m = Ok a.

(** [d[key]] on a dict: [KeyError] when the key is absent. *)
Definition getitem {V : Type} (d : gmap string V) (key : string) : result V :=
  match d !! key with
  | Some v => Ok v
  | None => Err (KeyError key)
  end.

(** [d.get(key, default)]. *)
Definition dict_get {V : Type} (d : gmap string V) (key : string) (dflt : V) : V :=
  default dflt (d !! key).

(** [os.getenv(key, default)] over the process environment. *)
Definition getenv (environ : gmap string string) (key dflt : string) : string :=
  default dflt (environ !! key).

(** Truth value of an argument that is [None] or a [str]. *)
Definition truthy (x : option string) : bool :=
  match x with
  | None => false
  | Some s => negb (String.eqb s "")
  end.

(** [x or y] where [x] is [None] or a [str] and [y] a [str]. *)
Definition py_or (x : option string) (y : string) : string :=
  match x with
  | Some s => if truthy x then s else y
  | None => y
  end.

(** [max(a, b)]: the first argument unless the second is strictly larger. *)
Definition py_max (a b : Q) : Q :=
  if Qle_bool b a then a else b.

(** [a / b] on numbers: true division, [ZeroDivisionError] on a zero divisor. *)
Definition truediv (a b : Q) : result Q :=
  if Qeq_bool b 0 then Err ZeroDivisionError else Ok (a / b)%Q.

(** JSON values as [request.get_json()] delivers them. *)
Inductive pyval : Type :=
| PNone
| PBool (b : bool)
| PInt (n : Z)
| PFloat (q : Q)
| PStr (s : string)
| PList (items : list pyval)
| PDict (fields : list (string * pyval)).

(** [key in d] and [d[key]] on a [dict] value. *)
Fixpoint assoc (key : string) (fields : list (string * pyval)) : option pyval :=
  match fields with
  | [] => None
  | (k, v) :: rest => if String.eqb key k then Some v else assoc key rest
  end.

Definition has_key (key : string) (fields : list (string * pyval)) : bool :=
  match assoc key fields with
  | Some _ => true
  | None => false
  end.

Definition is_str (key : string) (v : pyval) : bool :=
  match v with
  | PStr s => String.eqb key s
  | _ => false
  end.

Definition is_substring (key s : string) : bool :=
  match String.index 0 key s with
  | Some _ => true
  | None => false
  end.

(** [key in v] for a string [key]: key membership on a dict, element
    membership on a list, substring test on a string, [TypeError] on a
    value that is not a container. *)
Definition contains (key : string) (v : pyval) : result bool :=
  match v with
  | PDict fields => Ok (has_key key fields)
  | PList items => Ok (existsb (is_str key) items)
  | PStr s => Ok (is_substring key s)
  | _ => Err TypeError
  end.

(** [v[key]] for a string [key]: only a dict can be indexed by a string. *)
Definition subscript (v : pyval) (key : string) : result pyval :=
  match v with
  | PDict fields =>
      match assoc key fields with
      | Some x => Ok x
      | None => Err (KeyError key)
      end
  | _ => Err TypeError
  end.

(** [isinstance(v, list)] and [isinstance(v, dict)]. *)
Definition isinstance_list (v : pyval) : bool :=
  match v with PList _ => true | _ => false end.

Definition isinstance_dict (v : pyval) : bool :=
  match v with PDict _ => true | _ => false end.

(** [random]: the generator is a stream of the floats in [[0, 1)] that
    successive calls of [random.random()] return, with a cursor. *)
Record rng : Type := mkRng { draws : nat -> Q; cursor : nat }.

Definition random (g : rng) : Q * rng :=
  (draws g (cursor g), mkRng (draws g) (S (cursor g))).

(** [random.randint(a, b)], drawn from the same stream. *)
Definition randint (a b : Z) (g : rng) : Z * rng :=
  let (u, g') := random g in
  (a + Qfloor (u * inject_Z (b - a + 1)), g').

End Py.

Import Py.

Notation "'let*' x ':=' m 'in' k" := (Py.bind m (fun x => k))
  (at level 10, x name, m at level 100, k at level 200).

(** ** config.py *)

Module Config.

Record PerformanceBudget : Type := mkBudget {
  max_p99_latency_ms : Z;
  max_p95_latency_ms : Z;
  max_avg_latency_ms : Z;
  max_failure_rate_percent : Q;
  min_rps : Z;
  max_cpu_percent : option Z;
  max_memory_mb : option Z;
  max_error_rate_percent : option Q
}.

Record TestScenario : Type := mkScenario {
  name : string;
  users : Z;
  spawn_rate : Z;
  duration : string;
  description : string;
  user_classes : list string;
  tags : option (list string)
}.

Definition development_budget : PerformanceBudget :=
  mkBudget 300 200 100 1.0%Q 50 (Some 80) (Some 512) None.

Definition staging_budget : PerformanceBudget :=
  mkBudget 200 150 75 0.5%Q 100 (Some 70) (Some 1024) None.

Definition production_budget : PerformanceBudget :=
  mkBudget 150 100 50 0.1%Q 200 (Some 60) (Some 2048) None.

Definition PERFORMANCE_BUDGETS : gmap string PerformanceBudget :=
  <["development" := development_budget]>
  (<["staging" := staging_budget]>
  (<["production" := production_budget]> ∅)).

Definition smoke_scenario : TestScenario :=
  mkScenario "Smoke Test" 10 5 "30s"
    "Quick smoke test to verify basic functionality"
    ["ProofMessengerUser"] (Some ["smoke"]).

Definition normal_scenario : TestScenario :=
  mkScenario "Normal Load" 500 50 "2m"
    "Normal production load simulation"
    ["ProofMessengerUser"] (Some ["normal"]).

Definition peak_scenario : TestScenario :=
  mkScenario "Peak Hour Load" 1000 100 "5m"
    "Peak hour traffic simulation"
    ["PeakHourUser"; "ProofMessengerUser"] (Some ["peak"]).

Definition stress_scenario : TestScenario :=
  mkScenario "Stress Test" 2000 200 "10m"
    "Stress test to find breaking point"
    ["PeakHourUser"; "HighVolumeUser"; "ProofMessengerUser"] (Some ["stress"]).

Definition capacity_scenario : TestScenario :=
  mkScenario "Capacity Test" 5000 500 "15m"
    "Maximum capacity test"
    ["HighVolumeUser"] (Some ["capacity"]).

Definition endurance_scenario : TestScenario :=
  mkScenario "Endurance Test" 800 80 "30m"
    "Long-running endurance test"
    ["ProofMessengerUser"; "HighVolumeUser"] (Some ["endurance"]).

Definition TEST_SCENARIOS : gmap string TestScenario :=
  <["smoke" := smoke_scenario]>
  (<["normal" := normal_scenario]>
  (<["peak" := peak_scenario]>
  (<["stress" := stress_scenario]>
  (<["capacity" := capacity_scenario]>
  (<["endurance" := endurance_scenario]> ∅))))).

(** [PerformanceConfig.get_budget] *)
Definition get_budget (environ : gmap string string) (environment : option string)
  : result PerformanceBudget :=
  let env := py_or environment (getenv environ "ENVIRONMENT" "development") in
  let* dflt := getitem PERFORMANCE_BUDGETS "development" in
  Ok (dict_get PERFORMANCE_BUDGETS env dflt).

(** [PerformanceConfig.get_scenario] *)
Definition get_scenario (environ : gmap string string) (scenario_name : option string)
  : result TestScenario :=
  let scenario := py_or scenario_name (getenv environ "TEST_SCENARIO" "normal") in
  let* dflt := getitem TEST_SCENARIOS "normal" in
  Ok (dict_get TEST_SCENARIOS scenario dflt).

(** What the data model asks of a scenario's load shape. *)
Definition scenario_ok (s : TestScenario) : Prop :=
  0 < users s /\ 0 < spawn_rate s /\ spawn_rate s <= users s.

End Config.

Import Config.


Module ConfigTables.

(** An entry of [ENDPOINT_SLOS]. *)
Record EndpointSLO : Type := mkEndpointSLO {
  slo_max_p99_latency_ms : Z;
  slo_max_avg_latency_ms : Z;
  slo_max_failure_rate_percent : Q;
  slo_description : string
}.

(** [ENDPOINT_SLOS], in declaration order. *)
Definition ENDPOINT_SLOS : list (string * EndpointSLO) :=
  [ ("/api/verify-proof",
     mkEndpointSLO 150 50 0.1%Q "Core proof verification endpoint");
    ("/api/verify-biometric-proof",
     mkEndpointSLO 200 75 0.05%Q
       "Biometric proof verification (higher security, slightly higher latency allowed)");
    ("/api/batch-verify-proofs",
     mkEndpointSLO 500 200 0.1%Q
       "Batch processing endpoint (higher latency acceptable for batch operations)");
    ("/api/health",
     mkEndpointSLO 50 10 0.01%Q
       "Health check endpoint (must be very fast and reliable)") ].

(** An entry of [PERFORMANCE_ALERTS]. *)
Record AlertTier : Type := mkAlertTier {
  p99_latency_threshold_ms : Z;
  failure_rate_threshold_percent : Q;
  rps_drop_threshold_percent : Z;
  alert_description : string
}.

Definition PERFORMANCE_ALERTS : gmap string AlertTier :=
  <["critical" := mkAlertTier 500 1.0%Q 50
      "Critical performance degradation - immediate attention required"]>
  (<["warning" := mkAlertTier 300 0.5%Q 25
      "Performance warning - investigation recommended"]>
  (<["info" := mkAlertTier 200 0.2%Q 10
      "Performance info - minor degradation detected"]> ∅)).

End ConfigTables.

(** ** locustfile.py *)

Module Locust.

(** [get_user_classes_for_scenario]; user classes are named by their
    class names. *)
Definition scenarios : gmap string (list string) :=
  <["normal" := ["ProofMessengerUser"]]>
  (<["peak" := ["PeakHourUser"; "HighVolumeUser"]]>
  (<["stress" := ["PeakHourUser"; "HighVolumeUser"; "ProofMessengerUser"]]>
  (<["capacity" := ["HighVolumeUser"]]> ∅))).

Definition get_user_classes_for_scenario (scenario : string) : list string :=
  dict_get scenarios scenario ["ProofMessengerUser"].

(** [environment.stats.total] as far as [on_test_stop] reads it. *)
Record StatsEntry : Type := mkStatsEntry {
  num_requests : Z;
  num_failures : Z;
  avg_response_time : Q;
  get_response_time_percentile : Q -> Q
}.

(** What [on_test_stop] prints after its banner. *)
Record FinalReport : Type := mkFinalReport {
  total_requests : Z;
  total_failures : Z;
  failure_rate : Q;
  average_response_time : Q;
  percentile_95 : Q;
  percentile_99 : Q
}.

(** [on_test_stop]: the report is printed only when requests were made. *)
Definition on_test_stop (total : StatsEntry) : result (option FinalReport) :=
  let total_requests := num_requests total in
  let total_failures := num_failures total in
  if 0 <? total_requests then
    let* ratio := truediv (inject_Z total_failures) (inject_Z total_requests) in
    let failure_rate := (ratio * 100)%Q in
    Ok (Some (mkFinalReport total_requests total_failures failure_rate
                (avg_response_time total)
                (get_response_time_percentile total 0.95%Q)
                (get_response_time_percentile total 0.99%Q)))
  else Ok None.

(** A run of four requests of which one failed; the response-time
    figures play no part in the failure rate. *)
Definition one_in_four : StatsEntry :=
  mkStatsEntry 4 1 42 (fun _ => 120%Q).

End Locust.

(** ** mock_server.py *)

Module MockServer.

(** [server_stats]; [start_time] and the clock are seconds as rationals. *)
Record ServerStats : Type := mkServerStats {
  requests_processed : Z;
  start_time : Q;
  errors : Z
}.

(** The mutable state of the process: the counters and the generator. *)
Record World : Type := mkWorld {
  server_stats : ServerStats;
  gen : rng
}.

Definition incr_requests (st : ServerStats) : ServerStats :=
  mkServerStats (requests_processed st + 1) (start_time st) (errors st).

Definition incr_errors (st : ServerStats) : ServerStats :=
  mkServerStats (requests_processed st) (start_time st) (errors st + 1).

Definition base_latency : gmap string Q :=
  <["health" := 0.001%Q]>
  (<["login" := 0.025%Q]>
  (<["transaction" := 0.045%Q]>
  (<["biometric" := 0.065%Q]>
  (<["batch" := 0.120%Q]> ∅)))).

(** [simulate_processing_time]; the [time.sleep] leaves the modelled state
    unchanged. *)
Definition simulate_processing_time (endpoint_type : string) (g : rng) : Q * rng :=
  let latency := dict_get base_latency endpoint_type 0.050%Q in
  let (r1, g1) := random g in
  let variance := (latency * 0.2 * (r1 - 0.5))%Q in
  let final_latency := py_max 0.001%Q (latency + variance)%Q in
  let (r2, g2) := random g1 in
  let final_latency := if Qlt_le_dec r2 0.05%Q then (final_latency * 2)%Q else final_latency in
  (final_latency, g2).

(** The [for field in fields: if field not in d: return ...] loops of
    [validate_proof_payload]: the first field that is missing. *)
Fixpoint first_missing (fields : list string) (d : pyval) : result (option string) :=
  match fields with
  | [] => Ok None
  | field :: rest =>
      let* present := contains field d in
      if negb present then Ok (Some field) else first_missing rest d
  end.

Definition validate_proof_payload (payload : pyval) : result (bool * string) :=
  let required_fields := ["proof_bundle"] in
  if negb (isinstance_dict payload) then
    Ok (false, "Payload must be a JSON object")
  else
    let* missing := first_missing required_fields payload in
    match missing with
    | Some field => Ok (false, "Missing required field: " ++ field)
    | None =>
        let* proof_bundle := subscript payload "proof_bundle" in
        if negb (isinstance_dict proof_bundle) then
          Ok (false, "proof_bundle must be an object")
        else
          let bundle_fields := ["context"; "signature"] in
          let* missing := first_missing bundle_fields proof_bundle in
          match missing with
          | Some field =>
              Ok (false, "Missing required field in proof_bundle: " ++ field)
          | None => Ok (true, "Valid")
          end
    end.

(** The payloads [validate_proof_payload] is meant to accept: a dict with
    a ['proof_bundle'] key whose value is a dict with both a ['context']
    and a ['signature'] key. *)
Definition well_formed_payload (payload : pyval) : Prop :=
  exists fields bundle,
    payload = PDict fields /\
    assoc "proof_bundle" fields = Some (PDict bundle) /\
    has_key "context" bundle = true /\
    has_key "signature" bundle = true.

(** A Flask response: the [jsonify]'d body and the HTTP status; timestamps
    are kept as clock readings instead of their [isoformat()] strings. *)
Definition Response : Type := pyval * Z.

Definition status (r : Response) : Z := snd r.
Definition body (r : Response) : pyval := fst r.

(** The items of a value that the [isinstance(_, list)] guard let through. *)
Definition list_items (v : pyval) : result (list pyval) :=
  match v with
  | PList items => Ok items
  | _ => Err TypeError
  end.

(** The [for i, proof in enumerate(proofs)] loop of [batch_verify_proofs]. *)
Fixpoint verify_each (proofs : list pyval) (i : Z) (g : rng)
    (verified_count : Z) (failed_proofs : list pyval) : Z * list pyval * rng :=
  match proofs with
  | [] => (verified_count, failed_proofs, g)
  | _ :: rest =>
      let (r, g') := random g in
      if Qlt_le_dec 0.002%Q r then
        verify_each rest (i + 1) g' (verified_count + 1) failed_proofs
      else
        verify_each rest (i + 1) g' verified_count
          (failed_proofs ++
             [PDict [("index", PInt i); ("error", PStr "Verification failed")]])
  end.

(** The [try] block of [batch_verify_proofs].  Nothing in it changes the
    state before a statement that can raise, so the [except] clause sees
    the state the block was entered with. *)
Definition batch_try (w : World) (processing_time : Q)
    (request_json : result pyval) (now : Q) : result (Response * World) :=
  let* payload := request_json in
  let* present := contains "proofs" payload in
  let* rejected :=
    (if negb present then Ok true
     else let* field := subscript payload "proofs" in
          Ok (negb (isinstance_list field))) in
  if rejected then
    Ok ((PDict [("error", PStr "proofs field must be an array");
                ("timestamp", PFloat now)], 400),
        mkWorld (incr_errors (server_stats w)) (gen w))
  else
    let* field := subscript payload "proofs" in
    let* proofs := list_items field in
    let batch_size := Z.of_nat (length proofs) in
    let batch_processing_time := (0.010 * inject_Z batch_size)%Q in
    let '(verified_count, failed_proofs, g1) := verify_each proofs 0 (gen w) 0 [] in
    let (batch_id, g2) := randint 100000 999999 g1 in
    Ok ((PDict [("total_count", PInt batch_size);
                ("verified_count", PInt verified_count);
                ("failed_count", PInt (Z.of_nat (length failed_proofs)));
                ("failed_proofs", PList failed_proofs);
                ("processing_time_ms",
                 PFloat ((processing_time + batch_processing_time) * 1000)%Q);
                ("timestamp", PFloat now);
                ("batch_id", PStr ("batch-" ++ pretty batch_id))], 200),
        mkWorld (server_stats w) g2).

(** [batch_verify_proofs]: [request_json] is the outcome of
    [request.get_json()], [now] the reading of [datetime.now()]. *)
Definition batch_verify_proofs (w : World) (request_json : result pyval) (now : Q)
  : Response * World :=
  let (processing_time, g1) := simulate_processing_time "batch" (gen w) in
  let w1 := mkWorld (incr_requests (server_stats w)) g1 in
  match batch_try w1 processing_time request_json now with
  | Ok out => out
  | Err _ =>
      ((PDict [("error", PStr "Internal server error");
               ("timestamp", PFloat now)], 500),
       mkWorld (incr_errors (server_stats w1)) (gen w1))
  end.

(** [get_stats] *)
Definition get_stats (w : World) (now : Q) : result Response :=
  let st := server_stats w in
  let uptime := (now - start_time st)%Q in
  let* error_rate :=
    truediv (inject_Z (errors st)) (py_max 1 (inject_Z (requests_processed st))) in
  let* requests_per_second :=
    truediv (inject_Z (requests_processed st)) (py_max 1 uptime) in
  Ok (PDict [("requests_processed", PInt (requests_processed st));
             ("errors", PInt (errors st));
             ("error_rate", PFloat error_rate);
             ("uptime_seconds", PFloat uptime);
             ("requests_per_second", PFloat requests_per_second);
             ("start_time", PFloat (start_time st));
             ("current_time", PFloat now)], 200).

(** The counts that a response body reports. *)
Definition reports_counts (b : pyval) (total_count verified_count failed_count : Z) : Prop :=
  exists entries,
    b = PDict entries /\
    assoc "total_count" entries = Some (PInt total_count) /\
    assoc "verified_count" entries = Some (PInt verified_count) /\
    assoc "failed_count" entries = Some (PInt failed_count).

(** The float that a response body holds under a key. *)
Definition reports_float (b : pyval) (key : string) (q : Q) : Prop :=
  exists entries, b = PDict entries /\ assoc key entries = Some (PFloat q).

(** Sample states for the examples: a generator whose draws alternate
    between 0.5 and 0.001, and servers that have handled a few requests. *)
Definition alternating : rng :=
  mkRng (fun n => if Nat.even n then 0.5%Q else 0.001%Q) 0.

Definition server_after (requests errors : Z) (started : Q) : World :=
  mkWorld (mkServerStats requests started errors) alternating.

Definition three_proofs : pyval :=
  PDict [("proofs", PList [PDict []; PDict []; PDict []]);
         ("client_id", PStr "batch-client-1000")].

End MockServer.

(** ** The budget evaluator and the alert severity classifier

    The repository enforces its budgets in the runner scripts
    ([run_perf_test.sh], [run_perf_test.ps1]), which are not among the Python
    sources embedded above.  The definitions of this module follow the
    specification of the evaluator instead. *)

Module Evaluator.

(** Modelled from the spec: the three severity tiers of a violation. *)
Inductive Severity : Type := critical | warning | info.

(** Modelled from the spec: the outcome of comparing one statistic with its
    threshold, either met or violated in some tier. *)
Inductive Classification : Type :=
| passing
| violating (tier : Severity).

(** Modelled from the spec: the configurable ratio bands of the three-tier
    alerting table, the overage ratio from which a violation is [critical]
    and the one from which it is [warning]. *)
Record AlertBands : Type := mkAlertBands {
  critical_ratio : Q;
  warning_ratio : Q
}.

(** Modelled from the spec: the bands of its example, 2x and 1.5x. *)
Definition default_bands : AlertBands := mkAlertBands 2 1.5%Q.

(** Modelled from the spec: the band of an overage, "ratio >= 2x threshold
    -> critical; >= 1.5x -> warning; otherwise -> info".  [over] is the
    side that exceeds and [base] the side exceeded; the ratio test
    [over / base >= k] is taken as [over >= k * base], which is defined
    for a zero [base] as the classifier has no undefined region. *)
Definition band (bands : AlertBands) (over base : Q) : Severity :=
  if Qle_bool (critical_ratio bands * base) over then critical
  else if Qle_bool (warning_ratio bands * base) over then warning
  else info.

(** Modelled from the spec: the alert severity classifier of section 4.3,
    which is missing from the sources.  An observed value that satisfies
    its threshold (equality included) is [passing]; otherwise the tier
    comes from the overage ratio, inverted for an "at least" metric; an
    unknown direction is a configuration error. *)
Definition classify (bands : AlertBands) (direction : string) (observed threshold : Q)
  : result Classification :=
  if String.eqb direction "at_most" then
    Ok (if Qle_bool observed threshold then passing
        else violating (band bands observed threshold))
  else if String.eqb direction "at_least" then
    Ok (if Qle_bool threshold observed then passing
        else violating (band bands threshold observed))
  else Err ConfigurationError.

(** Modelled from the spec: the two directions of a threshold. *)
Definition known_direction (direction : string) : Prop :=
  direction = "at_most" \/ direction = "at_least".

(** Modelled from the spec: one per-request outcome of the SampleSet, as
    the load generator hands it over; the success flag is kept as a Python
    value so that a non-boolean flag can be told apart. *)
Record Sample : Type := mkSample {
  latency_ms : Q;
  success : pyval;
  endpoint : option string
}.

(** Modelled from the spec: a sample is well formed when its latency is not
    negative and its success flag is a boolean. *)
Definition valid_sample (s : Sample) : bool :=
  Qle_bool 0 (latency_ms s) &&
  match success s with PBool _ => true | _ => false end.

(** Modelled from the spec: a sample counts as failed unless it succeeded. *)
Definition failed (s : Sample) : bool :=
  match success s with PBool true => false | _ => true end.

(** Modelled from the spec: the thresholds a group of samples is held to,
    all of them for the top-level budget and some of them for an endpoint
    override (a partial budget). *)
Record Thresholds : Type := mkThresholds {
  t_max_p99_latency_ms : option Q;
  t_max_p95_latency_ms : option Q;
  t_max_avg_latency_ms : option Q;
  t_max_failure_rate_percent : option Q;
  t_min_rps : option Q
}.

(** Modelled from the spec: the thresholds of a [PerformanceBudget]. *)
Definition of_budget (b : PerformanceBudget) : Thresholds :=
  mkThresholds (Some (inject_Z (max_p99_latency_ms b)))
               (Some (inject_Z (max_p95_latency_ms b)))
               (Some (inject_Z (max_avg_latency_ms b)))
               (Some (max_failure_rate_percent b))
               (Some (inject_Z (min_rps b))).

(** Modelled from the spec: the partial budget that an entry of
    [ENDPOINT_SLOS] declares. *)
Definition of_endpoint_slo (e : ConfigTables.EndpointSLO) : Thresholds :=
  mkThresholds (Some (inject_Z (ConfigTables.slo_max_p99_latency_ms e)))
               None
               (Some (inject_Z (ConfigTables.slo_max_avg_latency_ms e)))
               (Some (ConfigTables.slo_max_failure_rate_percent e))
               None.

(** Modelled from the spec: the entries [{metric, observed, threshold,
    severity}] of a verdict. *)
Record Violation : Type := mkViolation {
  metric : string;
  observed : Q;
  threshold : Q;
  severity : Severity
}.

(** Modelled from the spec: the [summary_stats] of a verdict. *)
Record SummaryStats : Type := mkSummaryStats {
  p50 : Q;
  p95 : Q;
  p99 : Q;
  avg : Q;
  rps : Q;
  failure_rate_percent : Q
}.

(** Modelled from the spec: the evaluator's output. *)
Record Verdict : Type := mkVerdict {
  passed : bool;
  violations : list Violation;
  summary_stats : SummaryStats
}.

#[local] Instance Qle_dec : RelDecision Qle.
Proof.
  intros x y. destruct (Qlt_le_dec y x) as [H | H].
  - right. apply Qlt_not_le. exact H.
  - left. exact H.
Defined.

Definition Qsum (l : list Q) : Q := foldr Qplus 0%Q l.

(** Modelled from the spec: nearest-rank percentile, "sort ascending,
    index = ceil(percentile x count) - 1, clamped to valid range"; 0 on
    the empty group, which has no valid index. *)
Definition percentile (p : Q) (latencies : list Q) : Q :=
  let sorted := merge_sort Qle latencies in
  let count := Z.of_nat (length sorted) in
  let index := Z.max 0 (Z.min (count - 1) (Qceiling (p * inject_Z count) - 1)) in
  nth (Z.to_nat index) sorted 0%Q.

(** Modelled from the spec: the average latency, 0 on the empty group. *)
Definition average (latencies : list Q) : Q :=
  match latencies with
  | [] => 0%Q
  | _ => (Qsum latencies / inject_Z (Z.of_nat (length latencies)))%Q
  end.

(** Modelled from the spec: "100 x failed_count / total_count (0% if
    total_count is 0)". *)
Definition failure_rate_of (group : list Sample) : Q :=
  match group with
  | [] => 0%Q
  | _ => (100 * inject_Z (Z.of_nat (length (List.filter failed group)))
          / inject_Z (Z.of_nat (length group)))%Q
  end.

(** Modelled from the spec: step 2 of the algorithm, the statistics of one
    group over a wall-clock duration in seconds. *)
Definition statistics (group : list Sample) (duration : Q) : SummaryStats :=
  let latencies := map latency_ms group in
  mkSummaryStats (percentile 0.50%Q latencies)
                 (percentile 0.95%Q latencies)
                 (percentile 0.99%Q latencies)
                 (average latencies)
                 (inject_Z (Z.of_nat (length group)) / duration)%Q
                 (failure_rate_of group).

(** Modelled from the spec: one comparison of step 3, which appends no
    entry when the threshold is absent or met and one violation entry
    otherwise. *)
Definition check (bands : AlertBands) (direction metric : string)
    (observed : Q) (threshold : option Q) : result (list Violation) :=
  match threshold with
  | None => Ok []
  | Some t =>
      let* c := classify bands direction observed t in
      match c with
      | passing => Ok []
      | violating tier => Ok [mkViolation metric observed t tier]
      end
  end.

(** Modelled from the spec: step 3 for one group.  The empty group passes
    its latency and failure checks by definition and is held to the
    throughput floor only. *)
Definition check_group (bands : AlertBands) (t : Thresholds)
    (group : list Sample) (duration : Q) : result (list Violation) :=
  let st := statistics group duration in
  let* v_rps := check bands "at_least" "rps" (rps st) (t_min_rps t) in
  match group with
  | [] => Ok v_rps
  | _ =>
      let* v_p99 := check bands "at_most" "p99_latency_ms" (p99 st) (t_max_p99_latency_ms t) in
      let* v_p95 := check bands "at_most" "p95_latency_ms" (p95 st) (t_max_p95_latency_ms t) in
      let* v_avg := check bands "at_most" "avg_latency_ms" (avg st) (t_max_avg_latency_ms t) in
      let* v_fail := check bands "at_most" "failure_rate_percent"
                       (failure_rate_percent st) (t_max_failure_rate_percent t) in
      Ok (v_p99 ++ v_p95 ++ v_avg ++ v_fail ++ v_rps)%list
  end.

(** Modelled from the spec: the samples that carry a given endpoint tag,
    and those whose tag has a declared override. *)
Definition tagged (name : string) (s : Sample) : bool :=
  match endpoint s with
  | Some e => String.eqb e name
  | None => false
  end.

Definition declared (overrides : list (string * Thresholds)) (s : Sample) : bool :=
  existsb (fun o => tagged (fst o) s) overrides.

(** Modelled from the spec: the endpoint groups, checked in the order the
    endpoints were declared. *)
Fixpoint check_endpoints (bands : AlertBands) (overrides : list (string * Thresholds))
    (samples : list Sample) (duration : Q) : result (list Violation) :=
  match overrides with
  | [] => Ok []
  | (name, t) :: rest =>
      let* here := check_group bands t (List.filter (tagged name) samples) duration in
      let* there := check_endpoints bands rest samples duration in
      Ok (here ++ there)%list
  end.

(** Modelled from the spec: [evaluate] of section 4.2.  A wall-clock
    duration that is zero or negative is a configuration error, a
    malformed sample a validation error.  With overrides, a sample whose
    endpoint tag has a declared override belongs to that endpoint's group
    and every other sample to the global group; the endpoint violations
    come first, in declaration order, then the global ones.  The summary
    statistics are those of the whole sample set.  (The statistics endpoint
    of the mock server, [MockServer.get_stats], clamps the duration instead
    of rejecting it.) *)
Definition evaluate (bands : AlertBands) (budget : PerformanceBudget)
    (samples : list Sample) (endpoint_overrides : option (list (string * Thresholds)))
    (duration : Q) : result Verdict :=
  if Qle_bool duration 0 then Err ConfigurationError
  else if negb (forallb valid_sample samples) then Err ValidationError
  else
    let overrides := default [] endpoint_overrides in
    let global := List.filter (fun s => negb (declared overrides s)) samples in
    let* by_endpoint := check_endpoints bands overrides samples duration in
    let* overall := check_group bands (of_budget budget) global duration in
    let violations := (by_endpoint ++ overall)%list in
    Ok (mkVerdict (match violations with [] => true | _ => false end)
                  violations
                  (statistics samples duration)).

Definition about_rps (v : Violation) : Prop := metric v = "rps".

(** Sample runs for the examples: three quick successes, and the same run
    with a slow failure added. *)
Definition steady_run : list Sample :=
  [ mkSample 10 (PBool true) (Some "/api/health");
    mkSample 20 (PBool true) None;
    mkSample 30 (PBool true) None ].

Definition degraded_run : list Sample :=
  mkSample 5000 (PBool false) (Some "/api/verify-proof") :: steady_run.

Definition endpoint_overrides_of_config : list (string * Thresholds) :=
  map (fun entry => (fst entry, of_endpoint_slo (snd entry))) ConfigTables.ENDPOINT_SLOS.

End Evaluator.

(** ** mock_server.py: the remaining endpoints and the request log filter *)

Module Endpoints.

Import MockServer.

(** The outcome of a block that may raise, the exception being kept by its
    class name, so that the exceptions of [json] and of attribute access
    have a place beside the built-in ones. *)
Inductive attempt (A : Type) : Type :=
| Returned (a : A)
| Raised (exception : string).
Arguments Returned {A} a.
Arguments Raised {A} exception.

Definition exception_name (e : exn) : string :=
  match e with
  | KeyError _ => "KeyError"
  | TypeError => "TypeError"
  | ZeroDivisionError => "ZeroDivisionError"
  | BadRequest => "BadRequest"
  | ValidationError => "ValidationError"
  | ConfigurationError => "ConfigurationError"
  end.

Definition lift {A : Type} (m : result A) : attempt A :=
  match m with
  | Ok a => Returned a
  | Err e => Raised (exception_name e)
  end.

Definition and_then {A B : Type} (m : attempt A) (k : A -> attempt B) : attempt B :=
  match m with
  | Returned a => k a
  | Raised e => Raised e
  end.

Notation "'do*' x ':=' m 'in' k" := (and_then m (fun x => k))
  (at level 10, x name, m at level 100, k at level 200).

(** [health_check] *)
Definition health_check (w : World) (now : Q) : Response * World :=
  let (processing_time, g1) := simulate_processing_time "health" (gen w) in
  let st := incr_requests (server_stats w) in
  let uptime := (now - start_time st)%Q in
  ((PDict [("status", PStr "healthy");
           ("timestamp", PFloat now);
           ("uptime_seconds", PFloat uptime);
           ("requests_processed", PInt (requests_processed st));
           ("processing_time_ms", PFloat (processing_time * 1000)%Q)], 200),
   mkWorld st g1).

(** The answer of the [except Exception] clause of the three POST handlers. *)
Definition internal_server_error (verified : bool) (w : World) (now : Q)
  : Response * World :=
  ((PDict ((if verified then [("verified", PBool false)] else []) ++
           [("error", PStr "Internal server error"); ("timestamp", PFloat now)]), 500),
   mkWorld (incr_errors (server_stats w)) (gen w)).

(** The 400 answer to a payload that [validate_proof_payload] rejects. *)
Definition invalid_payload (message : string) (w : World) (now : Q) : Response * World :=
  ((PDict [("verified", PBool false);
           ("error", PStr message);
           ("timestamp", PFloat now)], 400),
   mkWorld (incr_errors (server_stats w)) (gen w)).

Section VerifyProof.

(** [json.loads] on a string: [None] stands for [json.JSONDecodeError]. *)
Variable json_loads : string -> option pyval.

(** The inner [try] of [verify_proof]: [json.loads(context)] raises
    [TypeError] on a context that is not a string, a [JSONDecodeError] is
    caught and gives ['unknown'], and [context_obj.get] raises
    [AttributeError] on a parsed value that is not an object. *)
Definition parse_proof_type (context : pyval) : attempt pyval :=
  match context with
  | PStr text =>
      match json_loads text with
      | None => Returned (PStr "unknown")
      | Some (PDict entries) =>
          Returned (default (PStr "unknown") (assoc "action" entries))
      | Some _ => Raised "AttributeError"
      end
  | _ => Raised "TypeError"
  end.

(** The [try] block of [verify_proof].  As in [batch_try], no statement that
    can raise comes after a change of the state. *)
Definition verify_proof_try (w : World) (processing_time : Q)
    (request_json : result pyval) (now : Q) : attempt (Response * World) :=
  do* payload := lift request_json in
  do* checked := lift (validate_proof_payload payload) in
  let (is_valid, message) := checked in
  if negb is_valid then Returned (invalid_payload message w now)
  else
    do* proof_bundle := lift (subscript payload "proof_bundle") in
    do* context := lift (subscript proof_bundle "context") in
    do* signature := lift (subscript proof_bundle "signature") in
    do* proof_type := parse_proof_type context in
    let g1 :=
      if is_str "transaction" proof_type
      then snd (simulate_processing_time "transaction" (gen w))
      else gen w in
    let (r, g2) := random g1 in
    if Qlt_le_dec 0.001%Q r then
      let (verification_id, g3) := randint 100000 999999 g2 in
      Returned
        ((PDict [("verified", PBool true);
                 ("timestamp", PFloat now);
                 ("proof_type", proof_type);
                 ("processing_time_ms", PFloat (processing_time * 1000)%Q);
                 ("verification_id", PStr ("verify-" ++ pretty verification_id))], 200),
         mkWorld (server_stats w) g3)
    else
      Returned
        ((PDict [("verified", PBool false);
                 ("error", PStr "Signature verification failed");
                 ("timestamp", PFloat now);
                 ("proof_type", proof_type)], 400),
         mkWorld (incr_errors (server_stats w)) g2).

(** [verify_proof] *)
Definition verify_proof (w : World) (request_json : result pyval) (now : Q)
  : Response * World :=
  let (processing_time, g1) := simulate_processing_time "login" (gen w) in
  let w1 := mkWorld (incr_requests (server_stats w)) g1 in
  match verify_proof_try w1 processing_time request_json now with
  | Returned out => out
  | Raised _ => internal_server_error true w1 now
  end.

End VerifyProof.

(** The [try] block of [verify_biometric_proof]. *)
Definition verify_biometric_proof_try (w : World) (processing_time : Q)
    (request_json : result pyval) (now : Q) : attempt (Response * World) :=
  do* payload := lift request_json in
  do* checked := lift (validate_proof_payload payload) in
  let (is_valid, message) := checked in
  if negb is_valid then Returned (invalid_payload message w now)
  else
    let (r, g1) := random (gen w) in
    if Qlt_le_dec 0.0005%Q r then
      let (verification_id, g2) := randint 100000 999999 g1 in
      Returned
        ((PDict [("verified", PBool true);
                 ("timestamp", PFloat now);
                 ("proof_type", PStr "biometric");
                 ("processing_time_ms", PFloat (processing_time * 1000)%Q);
                 ("verification_id", PStr ("bio-verify-" ++ pretty verification_id));
                 ("security_level", PStr "high")], 200),
         mkWorld (server_stats w) g2)
    else
      Returned
        ((PDict [("verified", PBool false);
                 ("error", PStr "Biometric verification failed");
                 ("timestamp", PFloat now)], 400),
         mkWorld (incr_errors (server_stats w)) g1).

(** [verify_biometric_proof] *)
Definition verify_biometric_proof (w : World) (request_json : result pyval) (now : Q)
  : Response * World :=
  let (processing_time, g1) := simulate_processing_time "biometric" (gen w) in
  let w1 := mkWorld (incr_requests (server_stats w)) g1 in
  match verify_biometric_proof_try w1 processing_time request_json now with
  | Returned out => out
  | Raised _ => internal_server_error true w1 now
  end.

(** The routes of the application, a POST carrying the outcome of
    [request.get_json()]. *)
Inductive request : Type :=
| GET_health
| POST_verify_proof (request_json : result pyval)
| POST_verify_biometric_proof (request_json : result pyval)
| POST_batch_verify_proofs (request_json : result pyval)
| GET_stats.

Definition counted (r : request) : bool :=
  match r with GET_stats => false | _ => true end.

Definition failed_response (r : Response) : bool := negb (status r =? 200).

Section Application.

Variable json_loads : string -> option pyval.

(** One request served at clock reading [now]; an exception that escapes a
    view function is Flask's 500. *)
Definition handle (w : World) (r : request) (now : Q) : Response * World :=
  match r with
  | GET_health => health_check w now
  | POST_verify_proof request_json => verify_proof json_loads w request_json now
  | POST_verify_biometric_proof request_json => verify_biometric_proof w request_json now
  | POST_batch_verify_proofs request_json => batch_verify_proofs w request_json now
  | GET_stats =>
      match get_stats w now with
      | Ok response => (response, w)
      | Err _ => ((PStr "Internal Server Error", 500), w)
      end
  end.

(** A run of the server: the requests in the order they are served, each
    with the clock reading at which it is. *)
Fixpoint serve (w : World) (requests : list (request * Q)) : list Response * World :=
  match requests with
  | [] => ([], w)
  | (r, now) :: rest =>
      let (response, w1) := handle w r now in
      let (responses, w2) := serve w1 rest in
      (response :: responses, w2)
  end.

End Application.

(** A server that has just started: [server_stats] as the module sets it. *)
Definition fresh (started : Q) (g : rng) : World :=
  mkWorld (mkServerStats 0 started 0) g.

(** The argument [code] of [log_request]: Werkzeug passes the status as an
    [int], the default is the string ['-']. *)
Inductive log_code : Type :=
| Code (n : Z)
| Text (s : string).

(** [str(code)] *)
Definition str_of_code (code : log_code) : string :=
  match code with
  | Code n => pretty n
  | Text s => s
  end.

(** [QuietRequestHandler.log_request]: whether the request is passed on to
    the log. *)
Definition log_request (code : log_code) : bool :=
  String.prefix "4" (str_of_code code) || String.prefix "5" (str_of_code code).

(** The draws of a generator with which every call of [random.random()]
    lands in [[0, 1)], as the library promises. *)
Definition unit_interval (g : rng) : Prop :=
  forall n, (0 <= draws g n)%Q /\ (draws g n < 1)%Q.

(** The two ways in which a handler leaves the counters: an answer 200 that
    counts no error, or an answer 400 or 500 that counts one. *)
Definition settles (before : ServerStats) (out : Response * World) : Prop :=
  (status (fst out) = 200 /\ server_stats (snd out) = before) \/
  ((status (fst out) = 400 \/ status (fst out) = 500) /\
   server_stats (snd out) = incr_errors before).

(** The value that a response body holds under a key. *)
Definition reports (b : pyval) (key : string) (v : pyval) : Prop :=
  exists entries, b = PDict entries /\ assoc key entries = Some v.

(** The positions, counted from the generator's cursor, of the draws among
    the next [n] that do not exceed 0.002. *)
Definition failing_offsets (g : rng) (n : nat) : list nat :=
  List.filter (fun k => Qle_bool (draws g (cursor g + k)) 0.002%Q) (seq 0 n).

(** The generator as [simulate_processing_time] leaves it. *)
Definition after_simulation (g : rng) : rng := mkRng (draws g) (2 + cursor g).



(** The entry that [batch_verify_proofs] reports for a failed proof. *)
Definition failure_entry (i : Z) : pyval :=
  PDict [("index", PInt i); ("error", PStr "Verification failed")].

End Endpoints.

(** ** locustfile.py: the simulated users *)

Module LoadGenerator.

Import MockServer Endpoints.

(** [random.choice(options)], one draw from the stream. *)
Definition choice (options : list string) (g : rng) : string * rng :=
  let (u, g') := random g in
  (nth (Z.to_nat (Qfloor (u * inject_Z (Z.of_nat (length options))))) options "", g').

Record ProofMessengerUser : Type := mkProofMessengerUser {
  user_id : string;
  session_token : string
}.

Record HighVolumeUser : Type := mkHighVolumeUser {
  client_id : string;
  api_key : string
}.

(** How [catch_response] is left: [response.success()] or
    [response.failure(message)]. *)
Inductive mark : Type :=
| Success
| Failure (message : string).

(** The number that Python compares a JSON number by. *)
Definition numeric (v : pyval) : option Q :=
  match v with
  | PBool b => Some (if b then 1 else 0)%Q
  | PInt n => Some (inject_Z n)
  | PFloat q => Some q
  | _ => None
  end.

Definition numeric_eq (x : Q) (b : pyval) : bool :=
  match numeric b with
  | Some y => Qeq_bool x y
  | None => false
  end.

(** [a == b] on JSON values: numbers by value, strings and [None] by
    content, lists element by element, dicts key by key. *)
Fixpoint py_eq (a b : pyval) {struct a} : bool :=
  match a with
  | PNone => match b with PNone => true | _ => false end
  | PBool x => numeric_eq (if x then 1 else 0)%Q b
  | PInt n => numeric_eq (inject_Z n) b
  | PFloat q => numeric_eq q b
  | PStr s => match b with PStr t => String.eqb s t | _ => false end
  | PList xs =>
      match b with
      | PList ys =>
          (fix pairwise (xs ys : list pyval) : bool :=
             match xs, ys with
             | [], [] => true
             | x :: xs', y :: ys' => py_eq x y && pairwise xs' ys'
             | _, _ => false
             end) xs ys
      | _ => false
      end
  | PDict d =>
      match b with
      | PDict e =>
          Nat.eqb (length d) (length e) &&
          (fix each (d : list (string * pyval)) : bool :=
             match d with
             | [] => true
             | (k, v) :: d' =>
                 match assoc k e with
                 | Some v' => py_eq v v'
                 | None => false
                 end && each d'
             end) d
      | _ => false
      end
  end.

(** [result.get(key, default)] on a parsed response: only an object has
    [get]. *)
Definition py_get (result : pyval) (key : string) (dflt : pyval) : attempt pyval :=
  match result with
  | PDict entries => Returned (default dflt (assoc key entries))
  | _ => Raised "AttributeError"
  end.

(** [v is True] *)
Definition is_True (v : pyval) : bool :=
  match v with PBool true => true | _ => false end.


Section Users.

(** [json.dumps(_, sort_keys=True)] and
    [hashlib.sha256(_.encode()).hexdigest()], which the users call, and
    [str(_)] as an f-string renders a value. *)
Variable json_dumps : pyval -> string.
Variable sha256_hexdigest : string -> string.
Variable py_str : pyval -> string.

(** [ProofMessengerUser.generate_session_token], [time] being
    [int(time.time())]. *)
Definition generate_session_token (user_id : string) (time : Z) : string :=
  String.substring 0 32 (sha256_hexdigest (user_id ++ "-" ++ pretty time)).

(** [ProofMessengerUser.on_start] *)
Definition on_start (time : Z) (g : rng) : ProofMessengerUser * rng :=
  let (n, g1) := randint 1000 9999 g in
  let user_id := "user-" ++ pretty n in
  (mkProofMessengerUser user_id (generate_session_token user_id time), g1).

(** The [context] dict of [generate_proof_payload], by proof type. *)
Definition proof_context (self : ProofMessengerUser) (proof_type : string)
    (timestamp : Z) (g : rng) : pyval * rng :=
  if String.eqb proof_type "login" then
    let (host, g1) := randint 1 254 g in
    (PDict [("action", PStr "login");
            ("user_id", PStr (user_id self));
            ("timestamp", PInt timestamp);
            ("ip_address", PStr ("192.168.1." ++ pretty host));
            ("user_agent",
             PStr "Mozilla/5.0 (Windows NT 10.0; Win64; x64) AppleWebKit/537.36")], g1)
  else if String.eqb proof_type "transaction" then
    let (amount, g1) := randint 1000 1000000 g in
    let (destination, g2) := randint 10000 99999 g1 in
    let (request_id, g3) := randint 100000 999999 g2 in
    (PDict [("action", PStr "wire_transfer");
            ("user_id", PStr (user_id self));
            ("amount", PInt amount);
            ("destination", PStr ("account-" ++ pretty destination));
            ("timestamp", PInt timestamp);
            ("request_id", PStr ("txn-" ++ pretty request_id))], g3)
  else if String.eqb proof_type "biometric" then
    let (amount, g1) := randint 100000 10000000 g in
    let (device, g2) := randint 1000 9999 g1 in
    (PDict [("action", PStr "biometric_approval");
            ("user_id", PStr (user_id self));
            ("transaction_amount", PInt amount);
            ("timestamp", PInt timestamp);
            ("device_id", PStr ("device-" ++ pretty device))], g2)
  else
    (PDict [("action", PStr "generic_proof");
            ("user_id", PStr (user_id self));
            ("timestamp", PInt timestamp)], g).

(** [ProofMessengerUser.generate_proof_payload], [timestamp] being
    [int(time.time())]. *)
Definition generate_proof_payload (self : ProofMessengerUser) (proof_type : string)
    (timestamp : Z) (g : rng) : pyval * rng :=
  let (context, g1) := proof_context self proof_type timestamp g in
  let context_json := json_dumps context in
  let signature := sha256_hexdigest (context_json ++ "-" ++ session_token self) in
  (PDict [("proof_bundle",
           PDict [("context", PStr context_json);
                  ("signature", PStr signature);
                  ("public_key", PStr ("pk-" ++ user_id self));
                  ("algorithm", PStr "ECDSA-SHA256")]);
          ("metadata",
           PDict [("client_version", PStr "1.0.0");
                  ("timestamp", PInt timestamp)])], g1).

(** [HighVolumeUser.on_start] *)
Definition on_start_high_volume (g : rng) : HighVolumeUser * rng :=
  let (n, g1) := randint 1000 9999 g in
  let client_id := "batch-client-" ++ pretty n in
  (mkHighVolumeUser client_id
     ("api-key-" ++ String.substring 0 16 (sha256_hexdigest client_id)), g1).

(** The [for i in range(batch_size)] loop of
    [HighVolumeUser.batch_verify_proofs]; every turn reads the same second
    of the clock. *)
Fixpoint batch_proofs (self : HighVolumeUser) (timestamp : Z) (turns : nat) (g : rng)
  : list pyval * rng :=
  match turns with
  | O => ([], g)
  | S turns' =>
      let (proof_type, g1) := choice ["login"; "transaction"] g in
      let (n, g2) := randint 1000 9999 g1 in
      let user_id := "batch-user-" ++ pretty n in
      let (batch, g3) := randint 10000 99999 g2 in
      let context :=
        PDict [("action", PStr proof_type);
               ("user_id", PStr user_id);
               ("timestamp", PInt timestamp);
               ("batch_id", PStr ("batch-" ++ pretty batch))] in
      let context_json := json_dumps context in
      let signature := sha256_hexdigest (context_json ++ "-" ++ api_key self) in
      let proof :=
        PDict [("context", PStr context_json);
               ("signature", PStr signature);
               ("public_key", PStr ("pk-" ++ user_id))] in
      let (rest, g4) := batch_proofs self timestamp turns' g3 in
      (proof :: rest, g4)
  end.

(** The payload that [HighVolumeUser.batch_verify_proofs] posts, with the
    batch size it drew. *)
Definition batch_payload (self : HighVolumeUser) (timestamp : Z) (g : rng)
  : Z * pyval * rng :=
  let (batch_size, g1) := randint 5 20 g in
  let (proofs, g2) := batch_proofs self timestamp (Z.to_nat batch_size) g1 in
  (batch_size, PDict [("proofs", PList proofs); ("client_id", PStr (client_id self))], g2).

(** The [with ... as response] block of
    [ProofMessengerUser.verify_biometric_proof]: [response_json] is what
    [response.json()] gives, [None] standing for [json.JSONDecodeError]. *)
Definition mark_biometric (status_code : Z) (response_json : option pyval) : attempt mark :=
  if status_code =? 200 then
    match response_json with
    | None => Returned (Failure "Invalid JSON response")
    | Some result =>
        do* verified := py_get result "verified" PNone in
        if is_True verified then Returned Success
        else Returned (Failure "Biometric proof verification failed")
    end
  else Returned (Failure ("HTTP " ++ pretty status_code)).

(** The [with ... as response] block of
    [HighVolumeUser.batch_verify_proofs]. *)
Definition mark_batch (status_code : Z) (response_json : option pyval) : attempt mark :=
  if status_code =? 200 then
    match response_json with
    | None => Returned (Failure "Invalid batch response")
    | Some result =>
        do* verified_count := py_get result "verified_count" (PInt 0) in
        do* total_count := py_get result "total_count" (PInt 0) in
        if py_eq verified_count total_count then Returned Success
        else Returned (Failure ("Batch verification incomplete: "
                                ++ py_str verified_count ++ "/" ++ py_str total_count))
    end
  else Returned (Failure ("Batch verification failed: HTTP " ++ pretty status_code)).

End Users.

(** The user classes that the file defines. *)
Definition user_class_names : list string :=
  ["ProofMessengerUser"; "HighVolumeUser"; "PeakHourUser"; "OffPeakUser"].

(** Stand-ins for the library functions in the examples. *)
Definition dumps_constant (v : pyval) : string := "{}".
Definition digest_constant (text : string) : string :=
  "e3b0c44298fc1c149afbf4c8996fb92427ae41e4649b934ca495991b7852b855".
Definition a_client : HighVolumeUser := mkHighVolumeUser "batch-client-1000" "api-key-0".
Definition str_of_int (v : pyval) : string :=
  match v with PInt n => pretty n | _ => "" end.

End LoadGenerator.

(** ** config.py: the remaining settings *)

Module Settings.

(** [s.split(sep)] for a one-character separator. *)
Fixpoint split (sep : Ascii.ascii) (s : string) : list string :=
  match s with
  | EmptyString => [EmptyString]
  | String c rest =>
      if Ascii.eqb c sep then EmptyString :: split sep rest
      else match split sep rest with
           | [] => [String c EmptyString]
           | word :: words => String c word :: words
           end
  end.

(** [sep.join(words)] *)
Fixpoint join (sep : string) (words : list string) : string :=
  match words with
  | [] => EmptyString
  | [word] => word
  | word :: rest => word ++ sep ++ join sep rest
  end.

(** [c.lower()] on an ASCII letter; the bytes of other characters are left
    alone, which does not matter for a comparison with ["true"]. *)
Definition lower_ascii (c : Ascii.ascii) : Ascii.ascii :=
  let n := Ascii.nat_of_ascii c in
  if (65 <=? n)%nat && (n <=? 90)%nat then Ascii.ascii_of_nat (n + 32) else c.

Fixpoint lower (s : string) : string :=
  match s with
  | EmptyString => EmptyString
  | String c rest => String (lower_ascii c) (lower rest)
  end.

Record NotificationConfig : Type := mkNotificationConfig {
  slack_webhook : option string;
  email_recipients : list string;
  pagerduty_key : option string;
  enabled : bool
}.

(** [PerformanceConfig.get_notification_config] *)
Definition get_notification_config (environ : gmap string string) : NotificationConfig :=
  mkNotificationConfig
    (environ !! "SLACK_WEBHOOK_URL")
    (split ","%char (getenv environ "PERF_ALERT_EMAILS" ""))
    (environ !! "PAGERDUTY_INTEGRATION_KEY")
    (String.eqb (lower (getenv environ "PERF_NOTIFICATIONS_ENABLED" "false")) "true").

(** [PerformanceConfig.should_fail_build] *)
Definition should_fail_build (environ : gmap string string) : bool :=
  String.eqb (lower (getenv environ "FAIL_BUILD_ON_PERF_VIOLATION" "true")) "true".

(** [PerformanceConfig.get_target_host] *)
Definition get_target_host (environ : gmap string string) : string :=
  getenv environ "TARGET_HOST" "http://localhost:8000".

(** Whether a string holds a given character. *)
Fixpoint has_char (c : Ascii.ascii) (s : string) : bool :=
  match s with
  | EmptyString => false
  | String c' rest => Ascii.eqb c' c || has_char c rest
  end.

End Settings.

(** * Properties *)

Import ConfigTables Locust MockServer Evaluator.

(** ** The error monad *)

Lemma bind_Ok {A B : Type} (m : result A) (k : A -> result B) (b : B) :
  Py.bind m k = Ok b -> exists a, m = Ok a /\ k a = Ok b.
Proof.
  destruct m as [a | e]; simpl; intros H.
  - exists a. split; [reflexivity | exact H].
  - discriminate H.
Qed.

Lemma bind_Ok_l {A B : Type} (a : A) (k : A -> result B) : Py.bind (Ok a) k = k a.
Proof. reflexivity. Qed.

Lemma py_or_nonempty (s y : string) : s <> "" -> py_or (Some s) y = s.
Proof.
  intros Hs. unfold py_or, truthy.
  destruct (String.eqb_spec s "") as [E | _]; [contradiction | reflexivity].
Qed.

Lemma py_or_empty (y : string) : py_or (Some "") y = y.
Proof. reflexivity. Qed.

Lemma py_or_None (y : string) : py_or None y = y.
Proof. reflexivity. Qed.

(** ** config.py: the environment and scenario resolvers *)

Section Resolvers.

Variable environ : gmap string string.

Lemma get_budget_unfold (environment : option string) :
  get_budget environ environment =
  Ok (dict_get PERFORMANCE_BUDGETS
        (py_or environment (getenv environ "ENVIRONMENT" "development"))
        development_budget).
Proof. reflexivity. Qed.

Lemma get_scenario_unfold (scenario_name : option string) :
  get_scenario environ scenario_name =
  Ok (dict_get TEST_SCENARIOS
        (py_or scenario_name (getenv environ "TEST_SCENARIO" "normal"))
        normal_scenario).
Proof. reflexivity. Qed.

Lemma dict_get_absent {V : Type} (d : gmap string V) (key : string) (dflt : V) :
  d !! key = None -> dict_get d key dflt = dflt.
Proof. intros H. unfold dict_get. rewrite H. reflexivity. Qed.

End Resolvers.

(** C1, as stated, fails: the empty string is a name that is not in the
    budget table, yet with [ENVIRONMENT=production] in the process
    environment [get_budget("")] returns the production budget, not the
    development one; likewise [get_scenario("")] under [TEST_SCENARIO=smoke]. *)
Lemma C1_empty_name_follows_environment :
  PERFORMANCE_BUDGETS !! "" = None /\
  get_budget (<["ENVIRONMENT" := "production"]> ∅) (Some "") = Ok production_budget /\
  production_budget <> development_budget /\
  TEST_SCENARIOS !! "" = None /\
  get_scenario (<["TEST_SCENARIO" := "smoke"]> ∅) (Some "") = Ok smoke_scenario /\
  smoke_scenario <> normal_scenario.
Proof.
  repeat split; try (vm_compute; reflexivity); discriminate.
Qed.

(** C1 (amended): for every non-empty name that is not in the budget table
    [get_budget] returns the development budget, and for every non-empty
    name that is not in the scenario table [get_scenario] returns the normal
    scenario; given [None], the name looked up is the environment variable
    ([ENVIRONMENT], [TEST_SCENARIO]), and "development" / "normal" when the
    variable is unset, an unknown value of the variable giving the default
    entry too; neither lookup raises, whatever the argument and the process
    environment. *)
Theorem C1_unknown_names_fall_back (environ : gmap string string) :
  (forall name : string, name <> "" -> PERFORMANCE_BUDGETS !! name = None ->
     get_budget environ (Some name) = Ok development_budget) /\
  (forall name : string, name <> "" -> TEST_SCENARIOS !! name = None ->
     get_scenario environ (Some name) = Ok normal_scenario) /\
  get_budget environ None =
    Ok (dict_get PERFORMANCE_BUDGETS
          (default "development" (environ !! "ENVIRONMENT")) development_budget) /\
  get_scenario environ None =
    Ok (dict_get TEST_SCENARIOS
          (default "normal" (environ !! "TEST_SCENARIO")) normal_scenario) /\
  (environ !! "ENVIRONMENT" = None -> get_budget environ None = Ok development_budget) /\
  (environ !! "TEST_SCENARIO" = None -> get_scenario environ None = Ok normal_scenario) /\
  (forall name : string, environ !! "ENVIRONMENT" = Some name ->
     PERFORMANCE_BUDGETS !! name = None ->
     get_budget environ None = Ok development_budget) /\
  (forall name : string, environ !! "TEST_SCENARIO" = Some name ->
     TEST_SCENARIOS !! name = None ->
     get_scenario environ None = Ok normal_scenario) /\
  (forall environment : option string, returns (get_budget environ environment)) /\
  (forall scenario_name : option string, returns (get_scenario environ scenario_name)).
Proof.
  repeat apply conj.
  - intros name Hne Habs. rewrite get_budget_unfold, py_or_nonempty by exact Hne.
    rewrite dict_get_absent by exact Habs. reflexivity.
  - intros name Hne Habs. rewrite get_scenario_unfold, py_or_nonempty by exact Hne.
    rewrite dict_get_absent by exact Habs. reflexivity.
  - reflexivity.
  - reflexivity.
  - intros Hunset. rewrite get_budget_unfold, py_or_None. unfold getenv.
    rewrite Hunset. reflexivity.
  - intros Hunset. rewrite get_scenario_unfold, py_or_None. unfold getenv.
    rewrite Hunset. reflexivity.
  - intros name Hset Habs. rewrite get_budget_unfold, py_or_None. unfold getenv.
    rewrite Hset. simpl. rewrite dict_get_absent by exact Habs. reflexivity.
  - intros name Hset Habs. rewrite get_scenario_unfold, py_or_None. unfold getenv.
    rewrite Hset. simpl. rewrite dict_get_absent by exact Habs. reflexivity.
  - intros environment. rewrite get_budget_unfold. eexists. reflexivity.
  - intros scenario_name. rewrite get_scenario_unfold. eexists. reflexivity.
Qed.

Lemma C1_unknown_names_fall_back_witness :
  get_budget (<["ENVIRONMENT" := "production"]> ∅) (Some "qa") = Ok development_budget /\
  get_scenario (<["TEST_SCENARIO" := "smoke"]> ∅) (Some "soak") = Ok normal_scenario /\
  get_budget (<["ENVIRONMENT" := "qa"]> ∅) None = Ok development_budget.
Proof.
  pose proof (C1_unknown_names_fall_back (<["ENVIRONMENT" := "production"]> ∅)) as Hb.
  pose proof (C1_unknown_names_fall_back (<["TEST_SCENARIO" := "smoke"]> ∅)) as Hs.
  pose proof (C1_unknown_names_fall_back (<["ENVIRONMENT" := "qa"]> ∅)) as He.
  split; [| split].
  - apply (proj1 Hb); [discriminate | vm_compute; reflexivity].
  - apply (proj1 (proj2 Hs)); [discriminate | vm_compute; reflexivity].
  - apply (proj1 (proj2 (proj2 (proj2 (proj2 (proj2 (proj2 He)))))) "qa");
      vm_compute; reflexivity.
Defined.

(** C9: [get_budget("")] is [get_budget(None)] and [get_scenario("")] is
    [get_scenario(None)]: the empty argument is not the key that is looked
    up, the key is the value of the environment variable, or "development" /
    "normal" when the variable is unset. *)
Theorem C9_empty_string_is_None (environ : gmap string string) :
  get_budget environ (Some "") = get_budget environ None /\
  get_scenario environ (Some "") = get_scenario environ None /\
  get_budget environ (Some "") =
    Ok (dict_get PERFORMANCE_BUDGETS
          (default "development" (environ !! "ENVIRONMENT")) development_budget) /\
  get_scenario environ (Some "") =
    Ok (dict_get TEST_SCENARIOS
          (default "normal" (environ !! "TEST_SCENARIO")) normal_scenario).
Proof.
  repeat split.
Qed.

Example get_budget_empty_staging :
  get_budget (<["ENVIRONMENT" := "staging"]> ∅) (Some "") = Ok staging_budget.
Proof. vm_compute. reflexivity. Qed.

(** ** config.py: the scenario table *)

Lemma TEST_SCENARIOS_Forall : map_Forall (fun _ s => scenario_ok s) TEST_SCENARIOS.
Proof.
  unfold TEST_SCENARIOS.
  repeat (apply map_Forall_insert_2; [unfold scenario_ok; simpl; lia |]).
  apply map_Forall_empty.
Qed.

(** C7: every scenario of [TEST_SCENARIOS] has a positive number of users
    and a positive spawn rate that does not exceed the number of users. *)
Theorem C7_scenarios_well_formed (key : string) (s : TestScenario) :
  TEST_SCENARIOS !! key = Some s ->
  0 < users s /\ 0 < spawn_rate s /\ spawn_rate s <= users s.
Proof.
  intros Hin. exact (TEST_SCENARIOS_Forall key s Hin).
Qed.

Lemma C7_scenarios_well_formed_witness :
  TEST_SCENARIOS !! "capacity" = Some capacity_scenario /\
  (0 < users capacity_scenario /\ 0 < spawn_rate capacity_scenario /\
   spawn_rate capacity_scenario <= users capacity_scenario).
Proof.
  split.
  - vm_compute. reflexivity.
  - apply (C7_scenarios_well_formed "capacity"). vm_compute. reflexivity.
Defined.

(** ** locustfile.py: user classes of a scenario *)

Lemma get_user_classes_default (scenario : string) :
  scenarios !! scenario = None ->
  get_user_classes_for_scenario scenario = ["ProofMessengerUser"].
Proof.
  intros Habs. unfold get_user_classes_for_scenario. apply dict_get_absent. exact Habs.
Qed.

Example get_user_classes_smoke :
  get_user_classes_for_scenario "smoke" = ["ProofMessengerUser"] /\
  get_user_classes_for_scenario "peak" = ["PeakHourUser"; "HighVolumeUser"].
Proof. split; vm_compute; reflexivity. Qed.

(** ** mock_server.py: payload validation *)

Ltac reject_payload :=
  right; split;
  [ intros (fields' & bundle' & Hp & Hb & Hc & Hs); simplify_eq; try discriminate
  | eexists; split; [reflexivity | discriminate] ].

Lemma validate_proof_payload_cases (payload : pyval) :
  (well_formed_payload payload /\
   validate_proof_payload payload = Ok (true, "Valid")) \/
  (~ well_formed_payload payload /\
   exists msg, validate_proof_payload payload = Ok (false, msg) /\ msg <> "").
Proof.
  destruct payload as [ | b | n | q | s | items | fields ]; try reject_payload.
  unfold validate_proof_payload. simpl. unfold has_key.
  destruct (assoc "proof_bundle" fields) as [v |] eqn:Ebundle; simpl.
  2: { right. split.
       - intros (fields' & bundle' & Hp & Hb & _). simplify_eq.
       - eexists. split; [reflexivity | discriminate]. }
  destruct v as [ | b | n | q | s | items | bundle ]; simpl;
    try (right; split;
         [ intros (fields' & bundle' & Hp & Hb & _); simplify_eq
         | eexists; split; [reflexivity | discriminate] ]).
  unfold has_key.
  destruct (assoc "context" bundle) as [c |] eqn:Econtext; simpl.
  2: { right. split.
       - intros (fields' & bundle' & Hp & Hb & Hc & _). simplify_eq.
         unfold has_key in Hc. rewrite Econtext in Hc. discriminate.
       - eexists. split; [reflexivity | discriminate]. }
  destruct (assoc "signature" bundle) as [sg |] eqn:Esignature; simpl.
  2: { right. split.
       - intros (fields' & bundle' & Hp & Hb & _ & Hs). simplify_eq.
         unfold has_key in Hs. rewrite Esignature in Hs. discriminate.
       - eexists. split; [reflexivity | discriminate]. }
  left. split; [| reflexivity].
  exists fields, bundle. unfold has_key. rewrite Econtext, Esignature. auto.
Qed.

(** C10: [validate_proof_payload] never raises; it returns [(True, "Valid")]
    exactly when the payload is a dict with a ['proof_bundle'] key whose
    value is a dict with both a ['context'] and a ['signature'] key, and on
    every other input it returns [False] with a non-empty message. *)
Theorem C10_validate_proof_payload_total (payload : pyval) :
  returns (validate_proof_payload payload) /\
  (validate_proof_payload payload = Ok (true, "Valid") <-> well_formed_payload payload) /\
  ((well_formed_payload payload /\
    validate_proof_payload payload = Ok (true, "Valid")) \/
   (~ well_formed_payload payload /\
    exists msg, validate_proof_payload payload = Ok (false, msg) /\ msg <> "")).
Proof.
  pose proof (validate_proof_payload_cases payload) as Hcases.
  split; [| split]; [| | exact Hcases].
  - destruct Hcases as [[_ Hv] | [_ (msg & Hv & _)]]; rewrite Hv; eexists; reflexivity.
  - destruct Hcases as [[Hwf Hv] | [Hnwf (msg & Hv & _)]].
    + split; intros _; assumption.
    + split; [rewrite Hv; discriminate | contradiction].
Qed.

Example validate_accepts :
  validate_proof_payload
    (PDict [("proof_bundle", PDict [("context", PStr "{}"); ("signature", PStr "ab")]);
            ("metadata", PDict [])]) = Ok (true, "Valid").
Proof. reflexivity. Qed.

Example validate_rejects_bundle_without_signature :
  validate_proof_payload (PDict [("proof_bundle", PDict [("context", PStr "{}")])])
  = Ok (false, "Missing required field in proof_bundle: signature").
Proof. reflexivity. Qed.

(** ** mock_server.py: batch verification *)

Lemma verify_each_counts (proofs : list pyval) :
  forall (i : Z) (g : rng) (verified_count : Z) (failed_proofs : list pyval)
         (verified_count' : Z) (failed_proofs' : list pyval) (g' : rng),
    verify_each proofs i g verified_count failed_proofs
      = (verified_count', failed_proofs', g') ->
    verified_count' + Z.of_nat (length failed_proofs')
      = verified_count + Z.of_nat (length failed_proofs) + Z.of_nat (length proofs).
Proof.
  induction proofs as [| proof rest IH]; intros i g v fl v' fl' g' Hrun.
  - simpl in Hrun. inversion Hrun; subst. simpl. lia.
  - simpl in Hrun. destruct (Qlt_le_dec 0.002 (draws g (cursor g))) as [Hok | Hfail].
    + apply IH in Hrun. rewrite Hrun. simpl length. lia.
    + apply IH in Hrun. rewrite Hrun, length_app. simpl length. lia.
Qed.

Lemma batch_verify_proofs_list (w : World) (fields : list (string * pyval))
    (proofs : list pyval) (now : Q) :
  assoc "proofs" fields = Some (PList proofs) ->
  let r := fst (batch_verify_proofs w (Ok (PDict fields)) now) in
  status r = 200 /\
  exists verified_count failed_count,
    reports_counts (body r) (Z.of_nat (length proofs)) verified_count failed_count /\
    verified_count + failed_count = Z.of_nat (length proofs).
Proof.
  intros Hproofs. unfold batch_verify_proofs.
  destruct (simulate_processing_time "batch" (gen w)) as [processing_time g1].
  unfold batch_try. simpl. unfold has_key. rewrite Hproofs. simpl.
  destruct (verify_each proofs 0 g1 0 []) as [[verified_count failed_proofs] g2] eqn:Hrun.
  destruct (randint 100000 999999 g2) as [batch_id g3]. simpl.
  split; [reflexivity |].
  exists verified_count, (Z.of_nat (length failed_proofs)). split.
  - eexists. split; [reflexivity |]. repeat split.
  - apply verify_each_counts in Hrun. simpl in Hrun. lia.
Qed.

Lemma batch_verify_proofs_200 (w : World) (request_json : result pyval) (now : Q) :
  status (fst (batch_verify_proofs w request_json now)) = 200 ->
  exists fields proofs,
    request_json = Ok (PDict fields) /\ assoc "proofs" fields = Some (PList proofs).
Proof.
  unfold batch_verify_proofs.
  destruct (simulate_processing_time "batch" (gen w)) as [processing_time g1].
  unfold batch_try.
  destruct request_json as [payload | e]; simpl; [| discriminate].
  destruct payload as [ | b | n | q | s | items | fields ]; simpl; try discriminate.
  - destruct (is_substring "proofs" s); simpl; discriminate.
  - destruct (existsb (is_str "proofs") items); simpl; discriminate.
  - unfold has_key. destruct (assoc "proofs" fields) as [v |] eqn:Hv; simpl;
      [| discriminate].
    destruct v as [ | b | n | q | s | items | inner ]; simpl; try discriminate.
    intros _. exists fields, items. split; [reflexivity | exact Hv].
Qed.

(** C8: a response of [batch_verify_proofs] with status 200 answers a request
    whose ['proofs'] field is a list, and its counts satisfy
    [verified_count + failed_count = total_count], [total_count] being the
    length of the submitted list. *)
Theorem C8_batch_counts_add_up (w : World) (request_json : result pyval) (now : Q) :
  status (fst (batch_verify_proofs w request_json now)) = 200 ->
  exists fields proofs total_count verified_count failed_count,
    request_json = Ok (PDict fields) /\
    assoc "proofs" fields = Some (PList proofs) /\
    reports_counts (body (fst (batch_verify_proofs w request_json now)))
      total_count verified_count failed_count /\
    verified_count + failed_count = total_count /\
    total_count = Z.of_nat (length proofs).
Proof.
  intros H200.
  destruct (batch_verify_proofs_200 w request_json now H200)
    as (fields & proofs & Hreq & Hproofs).
  subst request_json.
  destruct (batch_verify_proofs_list w fields proofs now Hproofs)
    as (_ & verified_count & failed_count & Hcounts & Hsum).
  exists fields, proofs, (Z.of_nat (length proofs)), verified_count, failed_count.
  repeat split; assumption.
Qed.

Lemma C8_batch_counts_add_up_witness :
  status (fst (batch_verify_proofs (server_after 3 1 0) (Ok three_proofs) 5)) = 200 /\
  exists fields proofs total_count verified_count failed_count,
    Ok three_proofs = Ok (PDict fields) /\
    assoc "proofs" fields = Some (PList proofs) /\
    reports_counts
      (body (fst (batch_verify_proofs (server_after 3 1 0) (Ok three_proofs) 5)))
      total_count verified_count failed_count /\
    verified_count + failed_count = total_count /\
    total_count = Z.of_nat (length proofs).
Proof.
  split.
  - vm_compute. reflexivity.
  - apply (C8_batch_counts_add_up (server_after 3 1 0) (Ok three_proofs) 5).
    vm_compute. reflexivity.
Defined.

Example batch_of_three :
  reports_counts
    (body (fst (batch_verify_proofs (server_after 3 1 0) (Ok three_proofs) 5))) 3 2 1.
Proof. eexists. split; [vm_compute; reflexivity |]. repeat split. Qed.

Example batch_without_body :
  status (fst (batch_verify_proofs (server_after 3 1 0) (Ok PNone) 5)) = 500 /\
  status (fst (batch_verify_proofs (server_after 3 1 0) (Ok (PDict [])) 5)) = 400.
Proof. split; vm_compute; reflexivity. Qed.

(** ** mock_server.py: the statistics endpoint *)

Lemma py_max_1_pos (x : Q) : (0 < py_max 1 x)%Q.
Proof.
  unfold py_max. destruct (Qle_bool x 1) eqn:E.
  - reflexivity.
  - destruct (Qlt_le_dec 0 x) as [Hpos | Hneg]; [exact Hpos |].
    assert (Qle_bool x 1 = true) as Habs.
    { apply Qle_bool_iff. apply Qle_trans with 0%Q; [exact Hneg | discriminate]. }
    congruence.
Qed.

Lemma py_max_1_small (x : Q) : (x <= 1)%Q -> py_max 1 x = 1%Q.
Proof.
  intros H. unfold py_max. apply Qle_bool_iff in H. rewrite H. reflexivity.
Qed.

Lemma py_max_1_large (x : Q) : (1 < x)%Q -> py_max 1 x = x.
Proof.
  intros H. unfold py_max. destruct (Qle_bool x 1) eqn:E; [| reflexivity].
  apply Qle_bool_iff in E. exfalso. apply (Qlt_not_le _ _ H E).
Qed.

Lemma py_max_1_large_or_one (n : Z) :
  0 < n -> py_max 1 (inject_Z n) = inject_Z n.
Proof.
  intros Hpos. unfold py_max.
  destruct (Qle_bool (inject_Z n) 1) eqn:E; [| reflexivity].
  apply Qle_bool_iff in E. change 1%Q with (inject_Z 1) in E.
  rewrite <- Zle_Qle in E. assert (n = 1) as -> by lia. reflexivity.
Qed.

Lemma truediv_pos (a b : Q) : (0 < b)%Q -> truediv a b = Ok (a / b)%Q.
Proof.
  intros Hb. unfold truediv. destruct (Qeq_bool b 0) eqn:E; [| reflexivity].
  apply Qeq_bool_iff in E. rewrite E in Hb. discriminate Hb.
Qed.

Lemma get_stats_unfold (w : World) (now : Q) :
  let st := server_stats w in
  get_stats w now =
  Ok (PDict [("requests_processed", PInt (requests_processed st));
             ("errors", PInt (errors st));
             ("error_rate",
              PFloat (inject_Z (errors st)
                      / py_max 1 (inject_Z (requests_processed st)))%Q);
             ("uptime_seconds", PFloat (now - start_time st)%Q);
             ("requests_per_second",
              PFloat (inject_Z (requests_processed st)
                      / py_max 1 (now - start_time st))%Q);
             ("start_time", PFloat (start_time st));
             ("current_time", PFloat now)], 200).
Proof.
  simpl. unfold get_stats.
  rewrite !truediv_pos by apply py_max_1_pos. reflexivity.
Qed.

(** C4, as stated, fails: with a wall-clock duration of zero (the clock
    still reads the start time), [get_stats] raises nothing and answers with
    the guarded finite value [requests_per_second = 5], the request count
    divided by the clamped divisor 1. *)
Lemma C4_zero_duration_is_clamped :
  (10 - start_time (server_stats (server_after 5 0 10)) == 0)%Q /\
  ~ raises (get_stats (server_after 5 0 10) 10) /\
  exists r, get_stats (server_after 5 0 10) 10 = Ok r /\
            status r = 200 /\
            reports_float (body r) "requests_per_second" 5%Q.
Proof.
  split; [reflexivity |].
  split; [intros [e He]; vm_compute in He; discriminate He |].
  eexists. split; [vm_compute; reflexivity |]. split; [reflexivity |].
  eexists. split; reflexivity.
Qed.

(** C4 (amended): [get_stats] never raises, whatever the counters and the
    clock: the duration is clamped from below by one second before the
    division, so the throughput it reports is
    [requests_processed / max(1, uptime)], which is [requests_processed]
    itself for every uptime up to one second, zero included, and
    [requests_processed / uptime] beyond. *)
Theorem C4_throughput_divisor_is_clamped (w : World) (now : Q) :
  exists (r : Response) (requests_per_second : Q),
    get_stats w now = Ok r /\
    status r = 200 /\
    reports_float (body r) "requests_per_second" requests_per_second /\
    ((now - start_time (server_stats w) <= 1)%Q ->
       (requests_per_second == inject_Z (requests_processed (server_stats w)))%Q) /\
    ((1 < now - start_time (server_stats w))%Q ->
       (requests_per_second ==
        inject_Z (requests_processed (server_stats w))
        / (now - start_time (server_stats w)))%Q).
Proof.
  eexists. eexists. split; [apply get_stats_unfold |].
  split; [reflexivity |]. split; [eexists; split; reflexivity |]. split.
  - intros Hsmall. rewrite (py_max_1_small _ Hsmall). field.
  - intros Hlarge. rewrite (py_max_1_large _ Hlarge). reflexivity.
Qed.

Lemma C4_throughput_divisor_is_clamped_witness :
  exists (r : Response) (requests_per_second : Q),
    get_stats (server_after 5 0 10) 10 = Ok r /\
    status r = 200 /\
    reports_float (body r) "requests_per_second" requests_per_second /\
    ((10 - 10 <= 1)%Q -> (requests_per_second == 5)%Q) /\
    ((1 < 10 - 10)%Q -> (requests_per_second == 5 / (10 - 10))%Q).
Proof.
  exact (C4_throughput_divisor_is_clamped (server_after 5 0 10) 10).
Defined.

(** ** The failure rate: locustfile.py against mock_server.py *)

Lemma on_test_stop_failure_rate (total : StatsEntry) :
  0 < num_requests total ->
  exists report,
    on_test_stop total = Ok (Some report) /\
    (failure_rate report ==
     100 * inject_Z (num_failures total) / inject_Z (num_requests total))%Q.
Proof.
  intros Hpos. unfold on_test_stop.
  destruct (Z.ltb_spec 0 (num_requests total)) as [_ | Hneg]; [| lia].
  rewrite truediv_pos.
  - simpl. eexists. split; [reflexivity |]. simpl. field.
    intros Hzero. unfold Qeq in Hzero. simpl in Hzero. lia.
  - unfold Qlt. simpl. lia.
Qed.

Lemma get_stats_error_rate (w : World) (now : Q) :
  exists r q,
    get_stats w now = Ok r /\
    reports_float (body r) "error_rate" q /\
    (0 < requests_processed (server_stats w) ->
     (q == inject_Z (errors (server_stats w))
           / inject_Z (requests_processed (server_stats w)))%Q).
Proof.
  eexists. eexists. split; [apply get_stats_unfold |].
  split; [eexists; split; reflexivity |].
  intros Hpos. rewrite py_max_1_large_or_one by lia. reflexivity.
Qed.

(** C5: the code at the failing input.  After four requests of which one
    failed, [get_stats] reports [error_rate = 1/4], the fraction, which is
    not the percentage [100 * 1 / 4 = 25]; [on_test_stop], on the same
    counts, reports the percentage 25. *)
Theorem C5_error_rate_is_a_fraction :
  (exists r q,
     get_stats (server_after 4 1 0) 60 = Ok r /\
     reports_float (body r) "error_rate" q /\
     (q == 1 # 4)%Q /\
     ~ (q == 100 * inject_Z 1 / inject_Z 4)%Q) /\
  (exists report,
     on_test_stop one_in_four = Ok (Some report) /\
     (failure_rate report == 100 * inject_Z 1 / inject_Z 4)%Q /\
     (failure_rate report == 25)%Q).
Proof.
  split.
  - eexists. eexists. split; [vm_compute; reflexivity |].
    split; [eexists; split; reflexivity |].
    split; [reflexivity | discriminate].
  - eexists. split; [vm_compute; reflexivity |]. split; reflexivity.
Qed.

(** ** The alert severity classifier *)

Section Classifier.

Variable bands : AlertBands.

Lemma classify_at_most (observed threshold : Q) :
  classify bands "at_most" observed threshold =
  Ok (if Qle_bool observed threshold then passing
      else violating (band bands observed threshold)).
Proof. reflexivity. Qed.

Lemma classify_at_least (observed threshold : Q) :
  classify bands "at_least" observed threshold =
  Ok (if Qle_bool threshold observed then passing
      else violating (band bands threshold observed)).
Proof. reflexivity. Qed.

Lemma Qle_bool_eq (x y : Q) : (x == y)%Q -> Qle_bool x y = true /\ Qle_bool y x = true.
Proof.
  intros E. split; apply Qle_bool_iff; rewrite E; apply Qle_refl.
Qed.

Lemma classify_unknown_direction (direction : string) (observed threshold : Q) :
  direction <> "at_most" -> direction <> "at_least" ->
  classify bands direction observed threshold = Err ConfigurationError.
Proof.
  intros H1 H2. unfold classify.
  destruct (String.eqb_spec direction "at_most") as [E | _]; [contradiction |].
  destruct (String.eqb_spec direction "at_least") as [E | _]; [contradiction |].
  reflexivity.
Qed.

End Classifier.

(** C3: on both directions the classifier returns a classification for every
    pair of an observed value and a threshold (the non-negative ones among
    them), a single one, and an observed value equal to its threshold is
    classified as [passing], not as a violation of any tier. *)
Theorem C3_classifier_total_and_boundary_passes
    (bands : AlertBands) (direction : string) (observed threshold : Q) :
  direction = "at_most" \/ direction = "at_least" ->
  (0 <= observed)%Q -> (0 <= threshold)%Q ->
  returns (classify bands direction observed threshold) /\
  (forall c1 c2,
     classify bands direction observed threshold = Ok c1 ->
     classify bands direction observed threshold = Ok c2 -> c1 = c2) /\
  ((observed == threshold)%Q ->
     classify bands direction observed threshold = Ok passing) /\
  classify bands direction threshold threshold = Ok passing.
Proof.
  intros Hdir _ _. split; [| split; [| split]].
  - destruct Hdir as [-> | ->]; eexists; reflexivity.
  - intros c1 c2 H1 H2. rewrite H1 in H2. inversion H2. reflexivity.
  - intros Heq. destruct (Qle_bool_eq _ _ Heq) as [Hle Hge].
    destruct Hdir as [-> | ->].
    + rewrite classify_at_most, Hle. reflexivity.
    + rewrite classify_at_least, Hge. reflexivity.
  - destruct (Qle_bool_eq threshold threshold (Qeq_refl _)) as [Hle _].
    destruct Hdir as [-> | ->].
    + rewrite classify_at_most, Hle. reflexivity.
    + rewrite classify_at_least, Hle. reflexivity.
Qed.

Lemma C3_classifier_total_and_boundary_passes_witness :
  returns (classify default_bands "at_least" 100 100) /\
  (forall c1 c2,
     classify default_bands "at_least" 100 100 = Ok c1 ->
     classify default_bands "at_least" 100 100 = Ok c2 -> c1 = c2) /\
  ((100 == 100)%Q -> classify default_bands "at_least" 100 100 = Ok passing) /\
  classify default_bands "at_least" 100 100 = Ok passing.
Proof.
  apply (C3_classifier_total_and_boundary_passes default_bands "at_least" 100 100).
  - right. reflexivity.
  - discriminate.
  - discriminate.
Defined.

Example classify_bands :
  classify default_bands "at_most" 0.2%Q 0.1%Q = Ok (violating critical) /\
  classify default_bands "at_most" 0.15%Q 0.1%Q = Ok (violating warning) /\
  classify default_bands "at_most" 0.11%Q 0.1%Q = Ok (violating info) /\
  classify default_bands "at_least" 0 200 = Ok (violating critical) /\
  classify default_bands "at_most" 1 0 = Ok (violating critical) /\
  classify default_bands "sideways" 1 1 = Err ConfigurationError.
Proof. repeat split. Qed.

(** ** The budget evaluator *)

Section Evaluation.

Variable bands : AlertBands.

(** A comparison yields no entry or one entry, which carries the metric's
    name and threshold. *)
Lemma check_returns (direction metric_name : string) (x : Q) (t : option Q) :
  known_direction direction ->
  exists vs,
    check bands direction metric_name x t = Ok vs /\
    Forall (fun v => metric v = metric_name /\ observed v = x /\ Some (threshold v) = t) vs.
Proof.
  intros Hdir. destruct t as [t |]; simpl.
  - destruct Hdir as [-> | ->].
    + rewrite classify_at_most. simpl.
      destruct (Qle_bool x t); eexists; split; try reflexivity; repeat constructor.
    + rewrite classify_at_least. simpl.
      destruct (Qle_bool t x); eexists; split; try reflexivity; repeat constructor.
  - eexists. split; [reflexivity | constructor].
Qed.

Lemma check_group_returns (t : Thresholds) (group : list Sample) (duration : Q) :
  exists vs, check_group bands t group duration = Ok vs.
Proof.
  unfold check_group. cbv zeta.
  destruct (check_returns "at_least" "rps" (rps (statistics group duration))
              (t_min_rps t)) as (v_rps & -> & _); [right; reflexivity |].
  rewrite bind_Ok_l. destruct group as [| s rest]; [eexists; reflexivity |].
  destruct (check_returns "at_most" "p99_latency_ms"
              (p99 (statistics (s :: rest) duration)) (t_max_p99_latency_ms t))
    as (v1 & -> & _); [left; reflexivity |].
  destruct (check_returns "at_most" "p95_latency_ms"
              (p95 (statistics (s :: rest) duration)) (t_max_p95_latency_ms t))
    as (v2 & -> & _); [left; reflexivity |].
  destruct (check_returns "at_most" "avg_latency_ms"
              (avg (statistics (s :: rest) duration)) (t_max_avg_latency_ms t))
    as (v3 & -> & _); [left; reflexivity |].
  destruct (check_returns "at_most" "failure_rate_percent"
              (failure_rate_percent (statistics (s :: rest) duration))
              (t_max_failure_rate_percent t))
    as (v4 & -> & _); [left; reflexivity |].
  rewrite !bind_Ok_l. eexists. reflexivity.
Qed.

Lemma check_endpoints_returns (overrides : list (string * Thresholds))
    (samples : list Sample) (duration : Q) :
  exists vs, check_endpoints bands overrides samples duration = Ok vs.
Proof.
  induction overrides as [| [endpoint_name t] rest IH]; simpl.
  - eexists. reflexivity.
  - destruct (check_group_returns t (List.filter (tagged endpoint_name) samples) duration)
      as (here & ->).
    destruct IH as (there & ->). simpl. eexists. reflexivity.
Qed.

Lemma positive_duration (duration : Q) : (0 < duration)%Q -> Qle_bool duration 0 = false.
Proof.
  intros Hpos. destruct (Qle_bool duration 0) eqn:E; [| reflexivity].
  apply Qle_bool_iff in E. exfalso. apply (Qlt_not_le _ _ Hpos E).
Qed.

Lemma evaluate_returns (budget : PerformanceBudget) (samples : list Sample)
    (endpoint_overrides : option (list (string * Thresholds))) (duration : Q) :
  (0 < duration)%Q -> forallb valid_sample samples = true ->
  exists by_endpoint overall,
    check_endpoints bands (default [] endpoint_overrides) samples duration
      = Ok by_endpoint /\
    check_group bands (of_budget budget)
      (List.filter (fun s => negb (declared (default [] endpoint_overrides) s)) samples)
      duration = Ok overall /\
    evaluate bands budget samples endpoint_overrides duration =
    Ok (mkVerdict (match (by_endpoint ++ overall)%list with [] => true | _ => false end)
                  (by_endpoint ++ overall)%list
                  (statistics samples duration)).
Proof.
  intros Hpos Hvalid. unfold evaluate.
  rewrite (positive_duration _ Hpos), Hvalid. simpl.
  destruct (check_endpoints_returns (default [] endpoint_overrides) samples duration)
    as (by_endpoint & Hby).
  destruct (check_group_returns (of_budget budget)
              (List.filter (fun s => negb (declared (default [] endpoint_overrides) s))
                 samples) duration) as (overall & Hoverall).
  exists by_endpoint, overall. rewrite Hby, Hoverall. simpl. auto.
Qed.

End Evaluation.

(** C2: for every budget and every valid sample set (latencies that are not
    negative, boolean success flags), over a positive duration, [evaluate]
    produces a verdict, and in it [passed] is true if and only if the list of
    violations is empty. *)
Theorem C2_passed_iff_no_violations
    (bands : AlertBands) (budget : PerformanceBudget) (samples : list Sample)
    (endpoint_overrides : option (list (string * Thresholds))) (duration : Q) :
  (0 < duration)%Q -> forallb valid_sample samples = true ->
  exists verdict,
    evaluate bands budget samples endpoint_overrides duration = Ok verdict /\
    (passed verdict = true <-> violations verdict = []).
Proof.
  intros Hpos Hvalid.
  destruct (evaluate_returns bands budget samples endpoint_overrides duration Hpos Hvalid)
    as (by_endpoint & overall & _ & _ & ->).
  eexists. split; [reflexivity |]. simpl.
  destruct (by_endpoint ++ overall)%list; split; intros H; try reflexivity; discriminate H.
Qed.

Lemma C2_passed_iff_no_violations_witness :
  (0 < 30)%Q /\ forallb valid_sample degraded_run = true /\
  exists verdict,
    evaluate default_bands production_budget degraded_run
      (Some endpoint_overrides_of_config) 30 = Ok verdict /\
    (passed verdict = true <-> violations verdict = []).
Proof.
  split; [reflexivity |]. split; [reflexivity |].
  apply (C2_passed_iff_no_violations default_bands production_budget degraded_run
           (Some endpoint_overrides_of_config) 30); reflexivity.
Defined.

Example steady_run_passes :
  exists verdict,
    evaluate default_bands production_budget steady_run None (1 # 100) = Ok verdict /\
    passed verdict = true /\ violations verdict = [].
Proof. eexists. split; [vm_compute; reflexivity |]. split; reflexivity. Qed.

Example malformed_samples_are_rejected :
  evaluate default_bands production_budget [mkSample (-1) (PBool true) None] None 30
    = Err ValidationError /\
  evaluate default_bands production_budget [mkSample 1 (PInt 1) None] None 30
    = Err ValidationError /\
  evaluate default_bands production_budget steady_run None 0 = Err ConfigurationError.
Proof. repeat split. Qed.

(** ** The empty sample set *)

Section EmptySampleSet.

Variable bands : AlertBands.
Variable duration : Q.

Lemma check_group_nil (t : Thresholds) :
  check_group bands t [] duration =
  check bands "at_least" "rps" (0 / duration)%Q (t_min_rps t).
Proof.
  unfold check_group. cbv zeta.
  change (rps (statistics [] duration)) with (0 / duration)%Q.
  destruct (check bands "at_least" "rps" (0 / duration)%Q (t_min_rps t)); reflexivity.
Qed.

Lemma check_group_nil_rps (t : Thresholds) (vs : list Violation) :
  check_group bands t [] duration = Ok vs -> Forall about_rps vs.
Proof.
  rewrite check_group_nil. intros Hcheck.
  destruct (check_returns bands "at_least" "rps" (0 / duration)%Q (t_min_rps t))
    as (vs' & Hvs' & Hall); [right; reflexivity |].
  rewrite Hvs' in Hcheck. inversion Hcheck; subst.
  eapply Forall_impl; [exact Hall |]. intros v (Hm & _). exact Hm.
Qed.

Lemma check_endpoints_nil_rps (overrides : list (string * Thresholds)) :
  forall vs, check_endpoints bands overrides [] duration = Ok vs -> Forall about_rps vs.
Proof.
  induction overrides as [| [endpoint_name t] rest IH]; simpl; intros vs Hcheck.
  - inversion Hcheck. constructor.
  - apply bind_Ok in Hcheck. destruct Hcheck as (here & Hhere & Hcheck).
    apply bind_Ok in Hcheck. destruct Hcheck as (there & Hthere & Hcheck).
    inversion Hcheck; subst. apply Forall_app. split.
    + apply (check_group_nil_rps t). exact Hhere.
    + apply IH. exact Hthere.
Qed.

Lemma floor_not_met (floor : Z) :
  0 < floor -> Qle_bool (inject_Z floor) (0 / duration)%Q = false.
Proof.
  intros Hpos. destruct (Qle_bool (inject_Z floor) (0 / duration)%Q) eqn:E;
    [| reflexivity].
  apply Qle_bool_iff in E. unfold Qdiv in E. rewrite Qmult_0_l in E.
  unfold Qle in E. simpl in E. lia.
Qed.

Lemma floor_met (floor : Z) :
  floor <= 0 -> Qle_bool (inject_Z floor) (0 / duration)%Q = true.
Proof.
  intros Hneg. apply Qle_bool_iff. unfold Qdiv. rewrite Qmult_0_l.
  unfold Qle. simpl. lia.
Qed.

End EmptySampleSet.

(** C6: over a positive duration and for every budget, the verdict on the
    empty sample set has no latency and no failure-rate violation (every
    violation it lists is about [rps], and the failure rate it reports is
    0%); when the budget's [min_rps] is strictly positive it lists an [rps]
    violation against that floor and does not pass; when [min_rps] is not
    positive and there are no endpoint overrides it lists nothing. *)
Theorem C6_empty_sample_set
    (bands : AlertBands) (budget : PerformanceBudget)
    (endpoint_overrides : option (list (string * Thresholds))) (duration : Q) :
  (0 < duration)%Q ->
  exists verdict,
    evaluate bands budget [] endpoint_overrides duration = Ok verdict /\
    Forall (fun v => metric v = "rps") (violations verdict) /\
    (failure_rate_percent (summary_stats verdict) == 0)%Q /\
    (0 < min_rps budget ->
       Exists (fun v => metric v = "rps" /\
                        threshold v = inject_Z (min_rps budget) /\
                        (observed v == 0)%Q) (violations verdict) /\
       passed verdict = false) /\
    (min_rps budget <= 0 -> endpoint_overrides = None ->
       violations verdict = [] /\ passed verdict = true).
Proof.
  intros Hpos.
  destruct (evaluate_returns bands budget [] endpoint_overrides duration Hpos eq_refl)
    as (by_endpoint & overall & Hby & Hoverall & ->).
  simpl in Hoverall. eexists. split; [reflexivity |]. simpl.
  split; [| split; [reflexivity | split]].
  - apply Forall_app. split.
    + exact (check_endpoints_nil_rps bands duration _ _ Hby).
    + exact (check_group_nil_rps bands duration _ _ Hoverall).
  - intros Hfloor. rewrite check_group_nil in Hoverall.
    unfold check in Hoverall. cbn [of_budget t_min_rps] in Hoverall.
    rewrite classify_at_least, (floor_not_met duration _ Hfloor), bind_Ok_l in Hoverall.
    inversion Hoverall; subst. split.
    + apply Exists_app. right. constructor. simpl.
      split; [reflexivity |]. split; [reflexivity |].
      unfold Qdiv. apply Qmult_0_l.
    + destruct by_endpoint; reflexivity.
  - intros Hfloor ->. simpl in Hby. inversion Hby; subst.
    rewrite check_group_nil in Hoverall.
    unfold check in Hoverall. cbn [of_budget t_min_rps] in Hoverall.
    rewrite classify_at_least, (floor_met duration _ Hfloor), bind_Ok_l in Hoverall.
    inversion Hoverall; subst. split; reflexivity.
Qed.

Lemma C6_empty_sample_set_witness :
  (0 < 30)%Q /\
  exists verdict,
    evaluate default_bands production_budget [] (Some endpoint_overrides_of_config) 30
      = Ok verdict /\
    Forall (fun v => metric v = "rps") (violations verdict) /\
    (failure_rate_percent (summary_stats verdict) == 0)%Q /\
    (0 < min_rps production_budget ->
       Exists (fun v => metric v = "rps" /\
                        threshold v = inject_Z (min_rps production_budget) /\
                        (observed v == 0)%Q) (violations verdict) /\
       passed verdict = false) /\
    (min_rps production_budget <= 0 -> Some endpoint_overrides_of_config = None ->
       violations verdict = [] /\ passed verdict = true).
Proof.
  split; [reflexivity |].
  apply (C6_empty_sample_set default_bands production_budget
           (Some endpoint_overrides_of_config) 30).
  reflexivity.
Defined.

Example empty_run_in_production :
  exists verdict,
    evaluate default_bands production_budget [] None 30 = Ok verdict /\
    map metric (violations verdict) = ["rps"] /\
    map severity (violations verdict) = [critical].
Proof. eexists. split; [vm_compute; reflexivity |]. split; reflexivity. Qed.

(** * Further properties of the sources *)

Import Endpoints.

(** ** mock_server.py: the simulated processing time *)

Lemma base_latency_Forall :
  map_Forall (fun _ latency => (0.001 <= latency)%Q /\ (latency <= 0.120)%Q) base_latency.
Proof.
  unfold base_latency.
  repeat (apply map_Forall_insert_2; [split; discriminate |]).
  apply map_Forall_empty.
Qed.

Lemma base_latency_range (endpoint_type : string) :
  (0.001 <= dict_get base_latency endpoint_type 0.050)%Q /\
  (dict_get base_latency endpoint_type 0.050 <= 0.120)%Q.
Proof.
  unfold dict_get. destruct (base_latency !! endpoint_type) as [latency |] eqn:E; simpl.
  - exact (base_latency_Forall endpoint_type latency E).
  - split; discriminate.
Qed.

Lemma py_max_bounds (a b : Q) :
  (a <= py_max a b)%Q /\ (b <= py_max a b)%Q /\ (py_max a b == a \/ py_max a b == b)%Q.
Proof.
  unfold py_max. destruct (Qle_bool b a) eqn:E.
  - apply Qle_bool_iff in E. repeat split; [lra | lra | left; reflexivity].
  - assert (~ (b <= a)%Q) as Hn by (intros H; apply Qle_bool_iff in H; congruence).
    repeat split; [lra | lra | right; reflexivity].
Qed.

Lemma simulate_processing_time_unfold (endpoint_type : string) (g : rng) :
  simulate_processing_time endpoint_type g =
  (let latency := dict_get base_latency endpoint_type 0.050%Q in
   let clamped :=
     py_max 0.001%Q (latency + latency * 0.2 * (draws g (cursor g) - 0.5))%Q in
   if Qlt_le_dec (draws g (S (cursor g))) 0.05%Q then (clamped * 2)%Q else clamped,
   mkRng (draws g) (S (S (cursor g)))).
Proof. reflexivity. Qed.

(** X1: the simulated processing time is at least one millisecond whatever the
    endpoint type and whatever the generator yields, and a call takes
    exactly two draws from the generator. *)
Theorem simulate_processing_time_floor (endpoint_type : string) (g : rng) :
  (0.001 <= fst (simulate_processing_time endpoint_type g))%Q /\
  snd (simulate_processing_time endpoint_type g) = mkRng (draws g) (2 + cursor g).
Proof.
  rewrite simulate_processing_time_unfold. cbv zeta. split; [| reflexivity].
  cbn [fst].
  set (x := (dict_get base_latency endpoint_type 0.050
             + dict_get base_latency endpoint_type 0.050 * 0.2
               * (draws g (cursor g) - 0.5))%Q).
  destruct (py_max_bounds 0.001%Q x) as (Hfloor & _ & _).
  destruct (Qlt_le_dec (draws g (S (cursor g))) 0.05%Q); lra.
Qed.

(** X2: with draws in [[0, 1)] the simulated processing time stays within ten
    percent of the endpoint's base latency, or within ten percent of twice
    the base latency for a slow request; it is doubled exactly when the
    second draw is below 0.05. *)
Theorem simulate_processing_time_range (endpoint_type : string) (g : rng) :
  unit_interval g ->
  let latency := dict_get base_latency endpoint_type 0.050%Q in
  let final_latency := fst (simulate_processing_time endpoint_type g) in
  ((0.05 <= draws g (S (cursor g)))%Q ->
     (0.9 * latency <= final_latency)%Q /\ (final_latency <= 1.1 * latency)%Q) /\
  ((draws g (S (cursor g)) < 0.05)%Q ->
     (1.8 * latency <= final_latency)%Q /\ (final_latency <= 2.2 * latency)%Q).
Proof.
  intros Hunit. cbv zeta. rewrite simulate_processing_time_unfold. cbv zeta. cbn [fst].
  destruct (base_latency_range endpoint_type) as [Hlow Hhigh].
  destruct (Hunit (cursor g)) as [Hr0 Hr1].
  set (latency := dict_get base_latency endpoint_type 0.050%Q) in *.
  set (r := draws g (cursor g)) in *.
  assert (0 <= latency * r)%Q as Hprod0 by (apply Qmult_le_0_compat; lra).
  assert (0 <= latency * (1 - r))%Q as Hprod1 by (apply Qmult_le_0_compat; lra).
  destruct (py_max_bounds 0.001%Q (latency + latency * 0.2 * (r - 0.5))%Q)
    as (Hfloor & Hge & [Heq | Heq]);
    destruct (Qlt_le_dec (draws g (S (cursor g))) 0.05%Q) as [Hslow | Hfast];
    split; intros Hdraw; split; lra.
Qed.

(** ** mock_server.py: what a request does to the counters *)

Lemma validate_proof_payload_returns (payload : pyval) :
  exists ok message, validate_proof_payload payload = Ok (ok, message).
Proof.
  destruct (validate_proof_payload_cases payload) as [[_ H] | [_ (message & H & _)]];
    rewrite H; eauto.
Qed.

Lemma verify_biometric_proof_try_settles (w : World) (processing_time : Q)
    (request_json : result pyval) (now : Q) (out : Response * World) :
  verify_biometric_proof_try w processing_time request_json now = Returned out ->
  settles (server_stats w) out.
Proof.
  unfold verify_biometric_proof_try.
  destruct request_json as [payload | e]; simpl; [| discriminate].
  destruct (validate_proof_payload_returns payload) as (ok & message & ->). simpl.
  destruct ok; simpl.
  - destruct (Qlt_le_dec 0.0005 (draws (gen w) (cursor (gen w)))); simpl;
      intros H; inversion H; subst; [left | right]; simpl; auto.
  - intros H. inversion H; subst. right. simpl. auto.
Qed.

Lemma verify_proof_try_settles (json_loads : string -> option pyval) (w : World)
    (processing_time : Q) (request_json : result pyval) (now : Q)
    (out : Response * World) :
  verify_proof_try json_loads w processing_time request_json now = Returned out ->
  settles (server_stats w) out.
Proof.
  unfold verify_proof_try.
  destruct request_json as [payload | e]; simpl; [| discriminate].
  destruct (validate_proof_payload_returns payload) as (ok & message & ->). simpl.
  destruct ok; simpl.
  2: { intros H. inversion H; subst. right. simpl. auto. }
  destruct (subscript payload "proof_bundle") as [proof_bundle | e]; simpl;
    [| discriminate].
  destruct (subscript proof_bundle "context") as [context | e]; simpl; [| discriminate].
  destruct (subscript proof_bundle "signature") as [signature | e]; simpl;
    [| discriminate].
  destruct (parse_proof_type json_loads context) as [proof_type | e]; simpl;
    [| discriminate].
  match goal with
  | |- context [Qlt_le_dec ?a ?b] => destruct (Qlt_le_dec a b)
  end; simpl; intros H; inversion H; subst; [left | right]; simpl; auto.
Qed.

Lemma batch_try_settles (w : World) (processing_time : Q)
    (request_json : result pyval) (now : Q) (out : Response * World) :
  batch_try w processing_time request_json now = Ok out ->
  settles (server_stats w) out.
Proof.
  unfold batch_try.
  destruct request_json as [payload | e]; simpl; [| discriminate].
  destruct (contains "proofs" payload) as [present | e]; simpl; [| discriminate].
  destruct present; simpl.
  2: { intros H. inversion H; subst. right. simpl. auto. }
  destruct (subscript payload "proofs") as [field | e]; simpl; [| discriminate].
  destruct (isinstance_list field) eqn:Hlist; simpl.
  2: { intros H. inversion H; subst. right. simpl. auto. }
  destruct (list_items field) as [proofs | e]; simpl; [| discriminate].
  destruct (verify_each proofs 0 (gen w) 0 []) as [[verified_count failed_proofs] g1].
  destruct (randint 100000 999999 g1) as [batch_id g2].
  intros H. inversion H; subst. left. simpl. auto.
Qed.

(** What one request does: the status is 200, 400 or 500; every route but
    [/api/stats] counts one request; an error is counted exactly when the
    status is not 200; the start time is never touched. *)
Lemma handle_accounting (json_loads : string -> option pyval) (w : World)
    (r : request) (now : Q) :
  let response := fst (handle json_loads w r now) in
  let after := server_stats (snd (handle json_loads w r now)) in
  (status response = 200 \/ status response = 400 \/ status response = 500) /\
  requests_processed after =
    requests_processed (server_stats w) + (if counted r then 1 else 0) /\
  errors after = errors (server_stats w) + (if failed_response response then 1 else 0) /\
  start_time after = start_time (server_stats w) /\
  (failed_response response = true -> counted r = true).
Proof.
  cbv zeta.
  assert (forall (before : ServerStats) (out : Response * World),
            settles (incr_requests before) out ->
            (status (fst out) = 200 \/ status (fst out) = 400 \/ status (fst out) = 500) /\
            requests_processed (server_stats (snd out)) = requests_processed before + 1 /\
            errors (server_stats (snd out))
              = errors before + (if failed_response (fst out) then 1 else 0) /\
            start_time (server_stats (snd out)) = start_time before /\
            (failed_response (fst out) = true -> true = true)) as Hsettled.
  { intros before out [[Hs ->] | [Hs ->]]; unfold failed_response.
    - rewrite Hs. simpl. repeat split; auto; lia.
    - destruct Hs as [Hs | Hs]; rewrite Hs; simpl; repeat split; auto. }
  destruct r as [| request_json | request_json | request_json |]; simpl.
  - unfold health_check.
    destruct (simulate_processing_time "health" (gen w)) as [processing_time g1].
    unfold failed_response, status. simpl. repeat split; auto; lia.
  - unfold verify_proof.
    destruct (simulate_processing_time "login" (gen w)) as [processing_time g1].
    destruct (verify_proof_try json_loads _ processing_time request_json now)
      as [out | e] eqn:Htry.
    + apply Hsettled. apply verify_proof_try_settles in Htry. exact Htry.
    + apply Hsettled. right. simpl. auto.
  - unfold verify_biometric_proof.
    destruct (simulate_processing_time "biometric" (gen w)) as [processing_time g1].
    destruct (verify_biometric_proof_try _ processing_time request_json now)
      as [out | e] eqn:Htry.
    + apply Hsettled. apply verify_biometric_proof_try_settles in Htry. exact Htry.
    + apply Hsettled. right. simpl. auto.
  - unfold batch_verify_proofs.
    destruct (simulate_processing_time "batch" (gen w)) as [processing_time g1].
    destruct (batch_try _ processing_time request_json now) as [out | e] eqn:Htry.
    + apply Hsettled. apply batch_try_settles in Htry. exact Htry.
    + apply Hsettled. right. simpl. auto.
  - rewrite get_stats_unfold. unfold failed_response, status. simpl.
    repeat split; auto; try lia; try discriminate.
Qed.

Lemma serve_counts (json_loads : string -> option pyval)
    (requests : list (request * Q)) :
  forall w : World,
    let responses := fst (serve json_loads w requests) in
    let after := server_stats (snd (serve json_loads w requests)) in
    length responses = length requests /\
    Forall (fun r => status r = 200 \/ status r = 400 \/ status r = 500) responses /\
    requests_processed after =
      requests_processed (server_stats w)
      + Z.of_nat (length (List.filter counted (map fst requests))) /\
    errors after =
      errors (server_stats w)
      + Z.of_nat (length (List.filter failed_response responses)) /\
    start_time after = start_time (server_stats w).
Proof.
  induction requests as [| [r now] rest IH]; intros w; cbv zeta.
  - simpl. repeat split; auto; lia.
  - simpl.
    pose proof (handle_accounting json_loads w r now) as Hstep. cbv zeta in Hstep.
    destruct (handle json_loads w r now) as [response w1]. simpl in Hstep.
    destruct Hstep as (Hstatus & Hrequests & Herrors & Hstart & _).
    specialize (IH w1). cbv zeta in IH.
    destruct (serve json_loads w1 rest) as [responses w2]. simpl in IH.
    destruct IH as (Hlen & Hall & Hreq2 & Herr2 & Hstart2). simpl.
    split; [congruence |]. split; [constructor; assumption |].
    split; [| split].
    + rewrite Hreq2, Hrequests. destruct (counted r); simpl length; lia.
    + rewrite Herr2, Herrors. destruct (failed_response response); simpl length; lia.
    + congruence.
Qed.

(** X3: over a whole run of the server, whatever the requests, their bodies
    and the random draws, [requests_processed] grows by the number of
    requests to the routes other than [/api/stats], [errors] grows by the
    number of answers whose status is not 200, every request is answered
    with 200, 400 or 500, and [start_time] stays as it was. *)
Theorem serve_accounting (json_loads : string -> option pyval)
    (requests : list (request * Q)) (w : World) :
  let responses := fst (serve json_loads w requests) in
  let after := server_stats (snd (serve json_loads w requests)) in
  length responses = length requests /\
  Forall (fun r => status r = 200 \/ status r = 400 \/ status r = 500) responses /\
  requests_processed after =
    requests_processed (server_stats w)
    + Z.of_nat (length (List.filter counted (map fst requests))) /\
  errors after =
    errors (server_stats w)
    + Z.of_nat (length (List.filter failed_response responses)) /\
  start_time after = start_time (server_stats w).
Proof.
  exact (serve_counts json_loads requests w).
Qed.

(** X4: on a server that started with its counters at zero, after any run,
    [errors] lies between zero and [requests_processed], and the
    [error_rate] that [/api/stats] then reports lies between 0 and 1. *)
Theorem error_rate_is_a_proportion (json_loads : string -> option pyval)
    (started : Q) (g : rng) (requests : list (request * Q)) (now : Q) :
  let w := snd (serve json_loads (fresh started g) requests) in
  0 <= errors (server_stats w) <= requests_processed (server_stats w) /\
  exists r q,
    get_stats w now = Ok r /\ status r = 200 /\
    reports_float (body r) "error_rate" q /\ (0 <= q)%Q /\ (q <= 1)%Q.
Proof.
  cbv zeta.
  pose proof (serve_counts json_loads requests (fresh started g)) as Hrun.
  cbv zeta in Hrun. destruct Hrun as (Hlen & Hall & Hreq & Herr & _).
  simpl in Hreq, Herr.
  set (w := snd (serve json_loads (fresh started g) requests)) in *.
  set (responses := fst (serve json_loads (fresh started g) requests)) in *.
  assert (0 <= errors (server_stats w) <= requests_processed (server_stats w)) as Hbounds.
  { assert (length (List.filter failed_response responses)
            <= length (List.filter counted (map fst requests)))%nat as Hle; [| lia].
    clear Hreq Herr Hlen Hall. subst responses w.
    generalize (fresh started g) as w0.
    induction requests as [| [r t] rest IH]; intros w0; simpl; [lia |].
    pose proof (handle_accounting json_loads w0 r t) as Hstep. cbv zeta in Hstep.
    destruct (handle json_loads w0 r t) as [response w1]. simpl in Hstep.
    specialize (IH w1). destruct (serve json_loads w1 rest) as [responses w2].
    simpl in *. destruct Hstep as (_ & _ & _ & _ & Hcounted).
    destruct (failed_response response) eqn:Hf.
    - rewrite (Hcounted eq_refl). simpl. lia.
    - destruct (counted r); simpl; lia. }
  split; [exact Hbounds |].
  eexists. eexists. split; [apply get_stats_unfold |].
  split; [reflexivity |]. split; [eexists; split; reflexivity |].
  cbv zeta.
  destruct (Z.eq_dec (requests_processed (server_stats w)) 0) as [Hzero | Hpos].
  - assert (errors (server_stats w) = 0) as -> by lia. rewrite Hzero. split; discriminate.
  - rewrite py_max_1_large_or_one by lia.
    assert (0 < inject_Z (requests_processed (server_stats w)))%Q as Hden
      by (unfold Qlt; simpl; lia).
    split.
    + apply Qle_shift_div_l; [exact Hden |]. rewrite Qmult_0_l.
      unfold Qle. simpl. lia.
    + apply Qle_shift_div_r; [exact Hden |]. rewrite Qmult_1_l.
      rewrite <- Zle_Qle. lia.
Qed.

(** ** mock_server.py: the verification endpoints *)

Lemma verify_biometric_proof_unfold (w : World) (payload : pyval) (now : Q) :
  verify_biometric_proof w (Ok payload) now =
  match verify_biometric_proof_try
          (mkWorld (incr_requests (server_stats w)) (after_simulation (gen w)))
          (fst (simulate_processing_time "biometric" (gen w))) (Ok payload) now with
  | Returned out => out
  | Raised _ =>
      internal_server_error true
        (mkWorld (incr_requests (server_stats w)) (after_simulation (gen w))) now
  end.
Proof. reflexivity. Qed.

(** X5: the biometric endpoint on a parsed body never answers 500: it answers
    200 with [verified = True] exactly when the payload is well formed and
    the third draw of the request exceeds 0.0005, and 400 otherwise, with
    the validator's message when the payload is not well formed.  When
    [get_json] raises, the answer is 500. *)
Theorem verify_biometric_proof_outcome (w : World) (payload : pyval) (now : Q) :
  let r := fst (verify_biometric_proof w (Ok payload) now) in
  (status r = 200 \/ status r = 400) /\
  (status r = 200 <->
   well_formed_payload payload /\ (0.0005 < draws (gen w) (2 + cursor (gen w)))%Q) /\
  (status r = 200 -> reports (body r) "verified" (PBool true)) /\
  (~ well_formed_payload payload ->
   exists message,
     validate_proof_payload payload = Ok (false, message) /\
     status r = 400 /\ reports (body r) "error" (PStr message)) /\
  (forall e, status (fst (verify_biometric_proof w (Err e) now)) = 500).
Proof.
  cbv zeta. rewrite verify_biometric_proof_unfold.
  unfold verify_biometric_proof_try. simpl lift. cbn [and_then].
  destruct (validate_proof_payload_cases payload)
    as [[Hwf Hvalid] | [Hnwf (message & Hvalid & _)]]; rewrite Hvalid;
    cbn [lift and_then negb].
  - cbn [after_simulation gen random draws cursor].
    destruct (Qlt_le_dec 0.0005 (draws (gen w) (2 + cursor (gen w)))) as [Hok | Hbad];
      unfold status, body; simpl.
    + split; [auto |]. split; [tauto |]. split.
      * intros _. eexists. split; reflexivity.
      * split; [contradiction | reflexivity].
    + split; [auto |]. split.
      * split; [discriminate |]. intros [_ Hlt]. exfalso. apply (Qlt_not_le _ _ Hlt Hbad).
      * split; [discriminate |]. split; [contradiction | reflexivity].
  - unfold status, body. simpl. split; [auto |]. split.
    + split; [discriminate | tauto].
    + split; [discriminate |]. split; [| reflexivity].
      intros _. exists message. split; [reflexivity |]. split; [reflexivity |].
      eexists. split; reflexivity.
Qed.




(** ** mock_server.py: which proofs of a batch fail *)

Lemma failing_offsets_S (g : rng) (n : nat) :
  failing_offsets g (S n) =
  ((if Qle_bool (draws g (cursor g)) 0.002%Q then [0%nat] else [])
   ++ map S (failing_offsets (mkRng (draws g) (S (cursor g))) n))%list.
Proof.
  unfold failing_offsets. cbn [seq List.filter cursor draws].
  rewrite Nat.add_0_r. rewrite <- seq_shift.
  assert (forall l : list nat,
            List.filter (fun k => Qle_bool (draws g (cursor g + k)) 0.002%Q) (map S l)
            = map S (List.filter
                       (fun k => Qle_bool (draws g (S (cursor g) + k)) 0.002%Q) l)) as Hshift.
  { induction l as [| k l IH]; [reflexivity |]. cbn [map List.filter].
    rewrite Nat.add_succ_r. cbn [Nat.add].
    destruct (Qle_bool (draws g (S (cursor g + k))) 0.002%Q); cbn [map]; rewrite IH;
      reflexivity. }
  rewrite Hshift. destruct (Qle_bool (draws g (cursor g)) 0.002%Q); reflexivity.
Qed.

Lemma failing_offsets_length (g : rng) (n : nat) :
  (length (failing_offsets g n) <= n)%nat.
Proof.
  unfold failing_offsets.
  pose proof (List.filter_length_le
                (fun k => Qle_bool (draws g (cursor g + k)) 0.002%Q) (seq 0 n)) as H.
  rewrite length_seq in H. exact H.
Qed.

Lemma Qle_bool_false (x y : Q) : (y < x)%Q -> Qle_bool x y = false.
Proof.
  intros Hlt. destruct (Qle_bool x y) eqn:E; [| reflexivity].
  apply Qle_bool_iff in E. exfalso. apply (Qlt_not_le _ _ Hlt E).
Qed.

(** The loop of [batch_verify_proofs] in closed form. *)
Lemma verify_each_closed (proofs : list pyval) :
  forall (i : Z) (g : rng) (verified_count : Z) (failed_proofs : list pyval),
    verify_each proofs i g verified_count failed_proofs =
    (verified_count
     + Z.of_nat (length proofs - length (failing_offsets g (length proofs))),
     (failed_proofs
      ++ map (fun k => failure_entry (i + Z.of_nat k))
           (failing_offsets g (length proofs)))%list,
     mkRng (draws g) (cursor g + length proofs)).
Proof.
  induction proofs as [| proof rest IH]; intros i g v fl.
  - simpl. rewrite Z.add_0_r, app_nil_r, Nat.add_0_r. destruct g; reflexivity.
  - cbn [verify_each random length]. rewrite failing_offsets_S.
    pose proof (failing_offsets_length (mkRng (draws g) (S (cursor g))) (length rest))
      as Hle.
    destruct (Qlt_le_dec 0.002 (draws g (cursor g))) as [Hok | Hbad].
    + rewrite (Qle_bool_false _ _ Hok).
      rewrite IH. cbn [app draws cursor]. rewrite map_map, length_map.
      f_equal; [f_equal |]; try lia; try (f_equal; lia).
      f_equal. apply map_ext. intros k. f_equal. lia.
    + assert (Qle_bool (draws g (cursor g)) 0.002%Q = true) as ->
        by (apply Qle_bool_iff; exact Hbad).
      rewrite IH. cbn [app draws cursor map length]. rewrite map_map, length_map.
      rewrite <- app_assoc. f_equal; [f_equal |]; try lia; try (f_equal; lia).
      f_equal. cbn [app]. f_equal.
      * unfold failure_entry. rewrite Z.add_0_r. reflexivity.
      * apply map_ext. intros k. f_equal. lia.
Qed.

Lemma batch_verify_proofs_unfold (w : World) (fields : list (string * pyval))
    (proofs : list pyval) (now : Q) :
  assoc "proofs" fields = Some (PList proofs) ->
  let n := length proofs in
  let g1 := after_simulation (gen w) in
  let failing := failing_offsets g1 n in
  batch_verify_proofs w (Ok (PDict fields)) now =
  ((PDict [("total_count", PInt (Z.of_nat n));
           ("verified_count", PInt (Z.of_nat (n - length failing)));
           ("failed_count", PInt (Z.of_nat (length failing)));
           ("failed_proofs", PList (map (fun k => failure_entry (Z.of_nat k)) failing));
           ("processing_time_ms",
            PFloat ((fst (simulate_processing_time "batch" (gen w))
                     + 0.010 * inject_Z (Z.of_nat n)) * 1000)%Q);
           ("timestamp", PFloat now);
           ("batch_id",
            PStr ("batch-" ++
                  pretty (fst (randint 100000 999999
                                 (mkRng (draws (gen w)) (2 + cursor (gen w) + n))))))],
    200),
   mkWorld (incr_requests (server_stats w))
           (mkRng (draws (gen w)) (S (2 + cursor (gen w) + n)))).
Proof.
  intros Hproofs. cbv zeta. unfold batch_verify_proofs.
  rewrite simulate_processing_time_unfold. cbv zeta.
  unfold batch_try. cbn [Py.bind contains subscript]. unfold has_key.
  rewrite Hproofs. cbn [negb Py.bind isinstance_list list_items gen server_stats].
  rewrite verify_each_closed. cbn [app draws cursor randint random length map].
  rewrite length_map. unfold after_simulation. cbn [draws cursor Nat.add].
  reflexivity.
Qed.

Lemma no_failing_offsets (g : rng) (n : nat) :
  length (failing_offsets (after_simulation g) n) = 0%nat <->
  forall k, (k < n)%nat -> (0.002 < draws g (2 + cursor g + k))%Q.
Proof.
  unfold failing_offsets. cbn [after_simulation draws cursor]. split.
  - intros Hempty k Hk. apply length_zero_iff_nil in Hempty.
    destruct (Qlt_le_dec 0.002 (draws g (2 + cursor g + k))) as [Hok | Hbad];
      [exact Hok |].
    exfalso.
    assert (In k (List.filter
                    (fun k => Qle_bool (draws g (2 + cursor g + k)) 0.002%Q)
                    (seq 0 n))) as Hin.
    { apply filter_In. split; [apply in_seq; lia | apply Qle_bool_iff; exact Hbad]. }
    rewrite Hempty in Hin. exact Hin.
  - intros Hall.
    destruct (List.filter
                (fun k => Qle_bool (draws g (2 + cursor g + k)) 0.002%Q)
                (seq 0 n)) as [| k rest] eqn:Hfilter; [reflexivity |].
    exfalso.
    assert (In k (List.filter
                    (fun k => Qle_bool (draws g (2 + cursor g + k)) 0.002%Q)
                    (seq 0 n))) as Hin
      by (rewrite Hfilter; left; reflexivity).
    apply filter_In in Hin. destruct Hin as [Hrange Hbad].
    apply in_seq in Hrange. apply Qle_bool_iff in Hbad.
    apply (Qlt_not_le _ _ (Hall k ltac:(lia)) Hbad).
Qed.

(** X7: for a batch of [n] proofs the answer is determined by the draws alone:
    the proofs reported as failed are exactly the positions [k < n], in
    increasing order, whose draw (the one [2 + k] places after the cursor)
    does not exceed 0.002, and [verified_count] counts the others; so the
    whole batch is verified if and only if each of these [n] draws exceeds
    0.002. *)
Theorem batch_failures_follow_draws (w : World) (fields : list (string * pyval))
    (proofs : list pyval) (now : Q) :
  assoc "proofs" fields = Some (PList proofs) ->
  let r := fst (batch_verify_proofs w (Ok (PDict fields)) now) in
  let failing := failing_offsets (after_simulation (gen w)) (length proofs) in
  reports (body r) "failed_proofs"
    (PList (map (fun k => failure_entry (Z.of_nat k)) failing)) /\
  reports (body r) "failed_count" (PInt (Z.of_nat (length failing))) /\
  reports (body r) "verified_count"
    (PInt (Z.of_nat (length proofs) - Z.of_nat (length failing))) /\
  (reports (body r) "verified_count" (PInt (Z.of_nat (length proofs))) <->
   forall k, (k < length proofs)%nat ->
             (0.002 < draws (gen w) (2 + cursor (gen w) + k))%Q).
Proof.
  intros Hproofs. cbv zeta.
  rewrite (batch_verify_proofs_unfold w fields proofs now Hproofs). cbv zeta.
  unfold body. cbn [fst].
  pose proof (failing_offsets_length (after_simulation (gen w)) (length proofs)) as Hle.
  split; [eexists; split; reflexivity |].
  split; [eexists; split; reflexivity |].
  split; [eexists; split; [reflexivity |]; simpl; do 2 f_equal; lia |].
  pose proof (no_failing_offsets (gen w) (length proofs)) as Hnone.
  rewrite <- Hnone. split.
  - intros (entries & Hbody & Hcount). inversion Hbody; subst entries.
    simpl in Hcount. inversion Hcount. lia.
  - intros Hzero. eexists. split; [reflexivity |]. simpl. rewrite Hzero.
    do 2 f_equal. lia.
Qed.

Lemma batch_failures_follow_draws_witness :
  reports (body (fst (batch_verify_proofs (server_after 3 1 0) (Ok three_proofs) 5)))
    "failed_proofs" (PList [failure_entry 1]) /\
  reports (body (fst (batch_verify_proofs (server_after 3 1 0) (Ok three_proofs) 5)))
    "failed_count" (PInt 1).
Proof.
  pose proof (batch_failures_follow_draws (server_after 3 1 0)
                [("proofs", PList [PDict []; PDict []; PDict []]);
                 ("client_id", PStr "batch-client-1000")]
                [PDict []; PDict []; PDict []] 5 eq_refl) as H.
  cbv zeta in H. destruct H as (Hfailed & Hcount & _).
  split; [exact Hfailed | exact Hcount].
Defined.

(** X8: the batch endpoint never looks into the proofs it is sent: two requests
    whose ['proofs'] lists have the same length get the same answer and
    leave the server in the same state, whatever the lists hold and whatever
    else the payloads carry. *)
Theorem batch_ignores_proof_contents (w : World)
    (fields1 fields2 : list (string * pyval)) (proofs1 proofs2 : list pyval) (now : Q) :
  assoc "proofs" fields1 = Some (PList proofs1) ->
  assoc "proofs" fields2 = Some (PList proofs2) ->
  length proofs1 = length proofs2 ->
  batch_verify_proofs w (Ok (PDict fields1)) now
  = batch_verify_proofs w (Ok (PDict fields2)) now.
Proof.
  intros H1 H2 Hlen.
  rewrite (batch_verify_proofs_unfold w fields1 proofs1 now H1).
  rewrite (batch_verify_proofs_unfold w fields2 proofs2 now H2).
  cbv zeta. rewrite Hlen. reflexivity.
Qed.

Lemma batch_ignores_proof_contents_witness :
  batch_verify_proofs (server_after 3 1 0) (Ok three_proofs) 5
  = batch_verify_proofs (server_after 3 1 0)
      (Ok (PDict [("proofs", PList [PNone; PInt 1; PStr "forged"])])) 5.
Proof.
  apply (batch_ignores_proof_contents (server_after 3 1 0)
           [("proofs", PList [PDict []; PDict []; PDict []]);
            ("client_id", PStr "batch-client-1000")]
           [("proofs", PList [PNone; PInt 1; PStr "forged"])]
           [PDict []; PDict []; PDict []] [PNone; PInt 1; PStr "forged"] 5);
    reflexivity.
Defined.

(** ** mock_server.py: the request log filter *)

Lemma log_request_table :
  forallb (fun n => Bool.eqb (log_request (Code n)) (400 <=? n)) (seqZ 100 500) = true.
Proof. vm_compute. reflexivity. Qed.

(** X9: for the three-digit status codes, from 100 to 599, [log_request] passes
    a request on to the log exactly when the code is 400 or more, a client
    or server error; the default code ['-'] is not logged. *)
Theorem log_request_errors_only (n : Z) :
  100 <= n <= 599 ->
  log_request (Code n) = (400 <=? n) /\ log_request (Text "-") = false.
Proof.
  intros Hrange. split; [| reflexivity].
  pose proof log_request_table as Htable. rewrite forallb_forall in Htable.
  apply Bool.eqb_prop. apply Htable. apply list_elem_of_In, elem_of_seqZ. lia.
Qed.

Lemma log_request_errors_only_witness :
  100 <= 404 <= 599 /\
  log_request (Code 404) = (400 <=? 404) /\ log_request (Text "-") = false.
Proof.
  split; [lia |]. apply (log_request_errors_only 404). lia.
Defined.

Example log_request_by_prefix :
  log_request (Code 200) = false /\ log_request (Code 302) = false /\
  log_request (Code 45) = true /\ log_request (Code 5000) = true.
Proof. repeat split. Qed.

(** ** locustfile.py against mock_server.py: what the users send *)

Import LoadGenerator.

Lemma randint_range (a b : Z) (g : rng) :
  a <= b -> (0 <= draws g (cursor g))%Q -> (draws g (cursor g) < 1)%Q ->
  a <= fst (randint a b g) <= b.
Proof.
  intros Hab Hlow Hhigh. unfold randint, random. cbn [fst].
  set (u := draws g (cursor g)) in *.
  assert (0 < inject_Z (b - a + 1))%Q as Hwidth by (unfold Qlt; simpl; lia).
  assert (0 <= Qfloor (u * inject_Z (b - a + 1))) as Hfloor0.
  { change 0 with (Qfloor 0). apply Qfloor_resp_le. apply Qmult_le_0_compat; lra. }
  assert (Qfloor (u * inject_Z (b - a + 1)) < b - a + 1) as Hfloor1.
  { rewrite Zlt_Qlt. apply Qle_lt_trans with (u * inject_Z (b - a + 1))%Q.
    - apply Qfloor_le.
    - assert (0 < (1 - u) * inject_Z (b - a + 1))%Q as Hgap
        by (apply Qmult_lt_0_compat; lra).
      lra. }
  lia.
Qed.

Section UsersAgainstServer.

Variable json_dumps : pyval -> string.
Variable sha256_hexdigest : string -> string.



Lemma generate_proof_payload_shape (self : ProofMessengerUser) (proof_type : string)
    (timestamp : Z) (g : rng) :
  let context_json := json_dumps (fst (proof_context self proof_type timestamp g)) in
  fst (generate_proof_payload json_dumps sha256_hexdigest self proof_type timestamp g) =
  PDict [("proof_bundle",
          PDict [("context", PStr context_json);
                 ("signature",
                  PStr (sha256_hexdigest (context_json ++ "-" ++ session_token self)));
                 ("public_key", PStr ("pk-" ++ user_id self));
                 ("algorithm", PStr "ECDSA-SHA256")]);
         ("metadata",
          PDict [("client_version", PStr "1.0.0");
                 ("timestamp", PInt timestamp)])].
Proof.
  cbv zeta. unfold generate_proof_payload.
  destruct (proof_context self proof_type timestamp g) as [context g1]. reflexivity.
Qed.

(** X10: every payload that a simulated user generates, for any proof type, any
    user and any state of its generator, passes the server's
    [validate_proof_payload]. *)
Theorem generated_payload_is_valid (self : ProofMessengerUser) (proof_type : string)
    (timestamp : Z) (g : rng) :
  validate_proof_payload
    (fst (generate_proof_payload json_dumps sha256_hexdigest self proof_type timestamp g))
  = Ok (true, "Valid").
Proof.
  rewrite generate_proof_payload_shape. reflexivity.
Qed.



Lemma batch_proofs_length (self : HighVolumeUser) (timestamp : Z) (turns : nat) :
  forall g, length (fst (batch_proofs json_dumps sha256_hexdigest self timestamp turns g))
            = turns.
Proof.
  induction turns as [| turns IH]; intros g; [reflexivity |].
  cbn [batch_proofs].
  destruct (choice ["login"; "transaction"] g) as [proof_type g1].
  destruct (randint 1000 9999 g1) as [n g2].
  destruct (randint 10000 99999 g2) as [batch g3].
  specialize (IH g3).
  destruct (batch_proofs json_dumps sha256_hexdigest self timestamp turns g3)
    as [rest g4].
  simpl in *. congruence.
Qed.

(** X12: a batch that a high-volume user posts is always accepted: with draws in
    [[0, 1)] it holds between 5 and 20 proofs, and the server answers 200
    with a [total_count] equal to the batch size the user drew. *)
Theorem generated_batch_is_accepted (self : HighVolumeUser) (timestamp : Z) (g : rng)
    (w : World) (now : Q) :
  unit_interval g ->
  let '(batch_size, payload, _) :=
    batch_payload json_dumps sha256_hexdigest self timestamp g in
  let r := fst (batch_verify_proofs w (Ok payload) now) in
  5 <= batch_size <= 20 /\
  status r = 200 /\
  reports (body r) "total_count" (PInt batch_size).
Proof.
  intros Hunit. unfold batch_payload.
  pose proof (randint_range 5 20 g ltac:(lia) (proj1 (Hunit _)) (proj2 (Hunit _)))
    as Hsize.
  destruct (randint 5 20 g) as [batch_size g1]. cbn [fst] in Hsize.
  pose proof (batch_proofs_length self timestamp (Z.to_nat batch_size) g1) as Hlen.
  destruct (batch_proofs json_dumps sha256_hexdigest self timestamp
              (Z.to_nat batch_size) g1) as [proofs g2].
  cbn [fst] in Hlen. cbv zeta.
  rewrite (batch_verify_proofs_unfold w
             [("proofs", PList proofs); ("client_id", PStr (client_id self))]
             proofs now eq_refl). cbv zeta.
  unfold status, body. cbn [fst snd].
  split; [exact Hsize |]. split; [reflexivity |].
  eexists. split; [reflexivity |]. simpl. rewrite Hlen. do 2 f_equal. lia.
Qed.

End UsersAgainstServer.

Lemma alternating_unit_interval : unit_interval alternating.
Proof.
  intros n. unfold alternating. cbn [draws].
  destruct (Nat.even n); split; unfold Qle, Qlt; simpl; lia.
Qed.


Lemma generated_batch_is_accepted_witness :
  unit_interval alternating /\
  let '(batch_size, payload, _) :=
    batch_payload dumps_constant digest_constant a_client 0 alternating in
  let r := fst (batch_verify_proofs (fresh 0 alternating) (Ok payload) 1) in
  5 <= batch_size <= 20 /\
  status r = 200 /\
  reports (body r) "total_count" (PInt batch_size).
Proof.
  split; [exact alternating_unit_interval |].
  apply (generated_batch_is_accepted dumps_constant digest_constant a_client 0
           alternating (fresh 0 alternating) 1).
  exact alternating_unit_interval.
Defined.

Lemma simulate_processing_time_range_witness :
  unit_interval alternating /\
  ((draws alternating (S (cursor alternating)) < 0.05)%Q ->
   (1.8 * dict_get base_latency "batch" 0.050
    <= fst (simulate_processing_time "batch" alternating))%Q /\
   (fst (simulate_processing_time "batch" alternating)
    <= 2.2 * dict_get base_latency "batch" 0.050)%Q).
Proof.
  split; [exact alternating_unit_interval |].
  exact (proj2 (simulate_processing_time_range "batch" alternating
                  alternating_unit_interval)).
Defined.

(** ** locustfile.py against mock_server.py: how the users read the answers *)

(** X13: a simulated user marks a biometric request as a success exactly when
    the server answered 200; any other answer is marked as the failure
    ["HTTP <status>"], and reading the answer never raises.  (The body is
    taken as the server built it, JSON transport being lossless.) *)
Theorem biometric_mark_follows_status (w : World) (request_json : result pyval) (now : Q) :
  let r := fst (verify_biometric_proof w request_json now) in
  (status r = 200 /\ mark_biometric (status r) (Some (body r)) = Returned Success) \/
  (status r <> 200 /\
   mark_biometric (status r) (Some (body r))
   = Returned (Failure ("HTTP " ++ pretty (status r)))).
Proof.
  cbv zeta. destruct request_json as [payload | e].
  - rewrite verify_biometric_proof_unfold.
    unfold verify_biometric_proof_try. simpl lift. cbn [and_then].
    destruct (validate_proof_payload_returns payload) as (ok & message & ->).
    cbn [lift and_then]. destruct ok; cbn [negb].
    + cbn [after_simulation gen random draws cursor].
      destruct (Qlt_le_dec 0.0005 (draws (gen w) (2 + cursor (gen w)))); unfold status, body.
      * left. split; reflexivity.
      * right. split; [discriminate | reflexivity].
    + right. unfold status, body. split; [discriminate | reflexivity].
  - right. unfold verify_biometric_proof.
    destruct (simulate_processing_time "biometric" (gen w)) as [processing_time g1].
    unfold status, body. split; [discriminate | reflexivity].
Qed.

Lemma py_eq_ints (a b : Z) : py_eq (PInt a) (PInt b) = true <-> a = b.
Proof.
  cbn [py_eq]. unfold numeric_eq. cbn [numeric]. rewrite Qeq_bool_iff.
  apply inject_Z_injective.
Qed.

(** X14: a simulated high-volume user marks a batch as a success exactly when the
    server reports no failed proof, that is when each of the draws behind
    the proofs exceeds 0.002; otherwise it marks a failure, and reading the
    answer never raises. *)
Theorem batch_mark_follows_failures (py_str : pyval -> string) (w : World)
    (fields : list (string * pyval)) (proofs : list pyval) (now : Q) :
  assoc "proofs" fields = Some (PList proofs) ->
  let r := fst (batch_verify_proofs w (Ok (PDict fields)) now) in
  (exists m, mark_batch py_str (status r) (Some (body r)) = Returned m) /\
  (mark_batch py_str (status r) (Some (body r)) = Returned Success <->
   reports (body r) "failed_count" (PInt 0)) /\
  (mark_batch py_str (status r) (Some (body r)) = Returned Success <->
   forall k, (k < length proofs)%nat ->
             (0.002 < draws (gen w) (2 + cursor (gen w) + k))%Q).
Proof.
  intros Hproofs. cbv zeta.
  rewrite (batch_verify_proofs_unfold w fields proofs now Hproofs). cbv zeta.
  unfold status, body. cbn [fst snd].
  pose proof (no_failing_offsets (gen w) (length proofs)) as Hall.
  pose proof (failing_offsets_length (after_simulation (gen w)) (length proofs)) as Hle.
  set (failing := failing_offsets (after_simulation (gen w)) (length proofs)) in *.
  unfold mark_batch. cbn [Z.eqb Pos.eqb py_get assoc String.eqb Ascii.eqb Bool.eqb
                          default and_then].
  assert (mark_success :
            (if py_eq (PInt (Z.of_nat (length proofs - length failing)))
                      (PInt (Z.of_nat (length proofs)))
             then Returned Success
             else Returned
                    (Failure ("Batch verification incomplete: "
                              ++ py_str (PInt (Z.of_nat (length proofs - length failing)))
                              ++ "/" ++ py_str (PInt (Z.of_nat (length proofs))))))
            = Returned Success <-> length failing = 0%nat).
  { destruct (py_eq (PInt (Z.of_nat (length proofs - length failing)))
                    (PInt (Z.of_nat (length proofs)))) eqn:E.
    - apply py_eq_ints in E. split; [lia | reflexivity].
    - split; [discriminate |]. intros Hzero.
      assert (py_eq (PInt (Z.of_nat (length proofs - length failing)))
                    (PInt (Z.of_nat (length proofs))) = true) as Habs
        by (apply py_eq_ints; lia).
      congruence. }
  simpl default. split; [| split].
  - match goal with |- context [if ?c then _ else _] => destruct c end; eexists;
      reflexivity.
  - rewrite mark_success. split.
    + intros ->. eexists. split; reflexivity.
    + intros (entries & Hbody & Hcount). inversion Hbody; subst entries.
      simpl in Hcount. inversion Hcount. lia.
  - rewrite mark_success. exact Hall.
Qed.

Lemma batch_mark_follows_failures_witness :
  mark_batch str_of_int
    (status (fst (batch_verify_proofs (server_after 3 1 0) (Ok three_proofs) 5)))
    (Some (body (fst (batch_verify_proofs (server_after 3 1 0) (Ok three_proofs) 5))))
  = Returned (Failure "Batch verification incomplete: 2/3") /\
  ~ reports (body (fst (batch_verify_proofs (server_after 3 1 0) (Ok three_proofs) 5)))
      "failed_count" (PInt 0).
Proof.
  split; [vm_compute; reflexivity |].
  pose proof (batch_mark_follows_failures str_of_int (server_after 3 1 0)
                [("proofs", PList [PDict []; PDict []; PDict []]);
                 ("client_id", PStr "batch-client-1000")]
                [PDict []; PDict []; PDict []] 5 eq_refl) as H.
  cbv zeta in H. destruct H as (_ & Hcount & _).
  intros Hreports. apply Hcount in Hreports. vm_compute in Hreports.
  discriminate Hreports.
Defined.

(** ** locustfile.py: the end-of-run report and the user classes *)

(** X15: [on_test_stop] prints no statistics for a run without requests; for a
    run with requests, of which between none and all failed, it reports the
    totals as they are and a failure rate between 0 and 100. *)
Theorem on_test_stop_report (total : StatsEntry) :
  (num_requests total <= 0 -> on_test_stop total = Ok None) /\
  (0 < num_requests total -> 0 <= num_failures total <= num_requests total ->
   exists report,
     on_test_stop total = Ok (Some report) /\
     total_requests report = num_requests total /\
     total_failures report = num_failures total /\
     (0 <= Locust.failure_rate report)%Q /\ (Locust.failure_rate report <= 100)%Q).
Proof.
  split.
  - intros Hnone. unfold on_test_stop.
    destruct (Z.ltb_spec 0 (num_requests total)) as [Hpos | _]; [lia | reflexivity].
  - intros Hpos Hfail. unfold on_test_stop.
    destruct (Z.ltb_spec 0 (num_requests total)) as [_ | Hneg]; [| lia].
    assert (0 < inject_Z (num_requests total))%Q as Hden by (unfold Qlt; simpl; lia).
    rewrite truediv_pos by exact Hden. simpl.
    eexists. split; [reflexivity |]. simpl. split; [reflexivity |].
    split; [reflexivity |].
    assert (0 <= inject_Z (num_failures total) / inject_Z (num_requests total))%Q as Hlow.
    { apply Qle_shift_div_l; [exact Hden |]. rewrite Qmult_0_l.
      unfold Qle. simpl. lia. }
    assert (inject_Z (num_failures total) / inject_Z (num_requests total) <= 1)%Q as Hhigh.
    { apply Qle_shift_div_r; [exact Hden |]. rewrite Qmult_1_l.
      rewrite <- Zle_Qle. lia. }
    split; lra.
Qed.

Lemma on_test_stop_report_witness :
  0 < num_requests one_in_four /\
  0 <= num_failures one_in_four <= num_requests one_in_four /\
  exists report,
    on_test_stop one_in_four = Ok (Some report) /\
    total_requests report = num_requests one_in_four /\
    total_failures report = num_failures one_in_four /\
    (0 <= Locust.failure_rate report)%Q /\ (Locust.failure_rate report <= 100)%Q.
Proof.
  split; [reflexivity |]. split; [simpl; lia |].
  apply (proj2 (on_test_stop_report one_in_four)); simpl; lia.
Defined.

Ltac distinct_names :=
  repeat (apply NoDup_cons_2;
          [ let Hin := fresh "Hin" in
            intros Hin;
            repeat (apply elem_of_cons in Hin as [Hin | Hin]; [discriminate Hin |]);
            apply elem_of_nil in Hin; exact Hin
          | ]);
  apply NoDup_nil_2.

Lemma scenarios_Forall :
  map_Forall (fun _ classes =>
                classes <> [] /\ NoDup classes /\
                Forall (fun c => In c user_class_names) classes) scenarios.
Proof.
  unfold scenarios.
  repeat (apply map_Forall_insert_2;
          [split; [discriminate |]; split;
           [distinct_names
           | repeat (apply Forall_cons_2; [simpl; tauto |]); apply Forall_nil_2] |]).
  apply map_Forall_empty.
Qed.

(** X16: whatever scenario name it is given, known or not,
    [get_user_classes_for_scenario] returns a list that is not empty, names
    no class twice and names only user classes that the file defines. *)
Theorem get_user_classes_runnable (scenario : string) :
  get_user_classes_for_scenario scenario <> [] /\
  NoDup (get_user_classes_for_scenario scenario) /\
  Forall (fun c => In c user_class_names) (get_user_classes_for_scenario scenario).
Proof.
  unfold get_user_classes_for_scenario, dict_get.
  destruct (scenarios !! scenario) as [classes |] eqn:E; simpl.
  - exact (scenarios_Forall scenario classes E).
  - split; [discriminate |]. split.
    + apply NoDup_singleton.
    + apply Forall_cons_2; [simpl; tauto | apply Forall_nil_2].
Qed.

(** ** config.py: the notification settings *)

Import Settings.

Lemma split_nonempty (sep : ascii) (s : string) : split sep s <> [].
Proof.
  destruct s as [| c rest]; simpl; [discriminate |].
  destruct (Ascii.eqb c sep); [discriminate |].
  destruct (split sep rest); discriminate.
Qed.

Lemma join_split (sep : ascii) (s : string) :
  join (String sep EmptyString) (split sep s) = s.
Proof.
  induction s as [| c rest IH]; [reflexivity |].
  cbn [split]. destruct (Ascii.eqb_spec c sep) as [-> | Hne].
  - pose proof (split_nonempty sep rest) as Hrest.
    destruct (split sep rest) as [| word words]; [contradiction |].
    cbn [join] in *. rewrite IH. reflexivity.
  - pose proof (split_nonempty sep rest) as Hrest.
    destruct (split sep rest) as [| word words]; [contradiction |].
    destruct words as [| word' words']; cbn [join] in *; rewrite <- IH; reflexivity.
Qed.

Lemma split_no_separator (sep : ascii) (s : string) :
  Forall (fun word => has_char sep word = false) (split sep s).
Proof.
  induction s as [| c rest IH]; cbn [split].
  - repeat constructor.
  - destruct (Ascii.eqb_spec c sep) as [-> | Hne].
    + constructor; [reflexivity | exact IH].
    + destruct (split sep rest) as [| word words].
      * repeat constructor. cbn [has_char].
        destruct (Ascii.eqb_spec c sep); [contradiction | reflexivity].
      * inversion IH; subst. constructor; [| assumption]. cbn [has_char].
        destruct (Ascii.eqb_spec c sep); [contradiction | assumption].
Qed.

(** X17: the e-mail recipients of the notification settings are the value of
    [PERF_ALERT_EMAILS] cut at its commas: joining them with commas gives
    the value back and no recipient holds a comma.  The list is never
    empty: when the variable is unset or empty it holds one recipient, the
    empty string. *)
Theorem email_recipients_split (environ : gmap string string) :
  let recipients := email_recipients (get_notification_config environ) in
  recipients <> [] /\
  join "," recipients = default "" (environ !! "PERF_ALERT_EMAILS") /\
  Forall (fun word => has_char "," word = false) recipients /\
  (default "" (environ !! "PERF_ALERT_EMAILS") = "" -> recipients = [""]).
Proof.
  cbv zeta. unfold get_notification_config. cbn [email_recipients]. unfold getenv.
  split; [apply split_nonempty |]. split; [apply join_split |].
  split; [apply split_no_separator |].
  intros ->. reflexivity.
Qed.

Example notification_defaults :
  get_notification_config ∅ = mkNotificationConfig None [""] None false /\
  email_recipients
    (get_notification_config (<["PERF_ALERT_EMAILS" := "a@x.io,b@x.io,"]> ∅))
  = ["a@x.io"; "b@x.io"; ""] /\
  enabled (get_notification_config (<["PERF_NOTIFICATIONS_ENABLED" := "True"]> ∅)) = true /\
  should_fail_build ∅ = true /\
  should_fail_build (<["FAIL_BUILD_ON_PERF_VIOLATION" := "0"]> ∅) = false.
Proof. repeat split; vm_compute; reflexivity. Qed.
